(** * frads: matrix endpoints (radmtx.py) and non-coplanar shading (ncp.py)

    A shallow embedding of the two modules and the properties of their
    port synthesis, receiver accumulation, surface staging, resource
    release and pipeline entry point.

    Conventions of the embedding.
    - A Python [float] that is neither NaN nor infinite is read as the
      rational it denotes ([Q]); [==] on floats is [Qeq_bool], [<] is
      the strict order of [Q].  Operations of the geometry module, which
      round, are never recomputed here: they are fields of an interface.
      A decimal literal ([0.001], [-0.1]) is written as the fraction it
      spells and only handed on to that interface.
    - A function that can raise returns a [result]; a function that
      touches files, objects or processes threads a world explicitly and
      returns the world it leaves even when it raises.
    - Modules of the package that the two files import but that are not
      part of them ([geom], [parsers], [utils], [matrix], [radutil],
      [radgeom], [makesky]) are interfaces (type classes); the functions
      of the two files are written against them. *)

From Stdlib Require Import QArith Qabs Qround Ascii Lqa.
From stdpp Require Import gmap strings list pretty.

(** ** Python run time *)

Inductive exn : Type :=
| NameError (msg : string)
| ValueError (msg : string)
| TypeError (msg : string)
| AssertionError (msg : string)
| IndexError (msg : string)
| AttributeError (msg : string)
| ZeroDivisionError (msg : string)
| KeyError (key : string)
| FileNotFoundError (path : string).

Inductive result (A : Type) : Type :=
| Ok (a : A)
| Raise (e : exn).
Arguments Ok {A} a.
Arguments Raise {A} e.

Definition rbind {A B} (r : result A) (k : A → result B) : result B :=
  match r with
  | Ok a => k a
  | Raise e => Raise e
  end.

(** Code with effects on a world [W]: the world is returned on every
    exit, normal or exceptional. *)
Definition prog (W A : Type) : Type := W → result A * W.

Definition pret {W A} (a : A) : prog W A := λ w, (Ok a, w).
Definition praise {W A} (e : exn) : prog W A := λ w, (Raise e, w).
Definition pbind {W A B} (c : prog W A) (k : A → prog W B) : prog W B :=
  λ w, match c w with
       | (Ok a, w') => k a w'
       | (Raise e, w') => (Raise e, w')
       end.
Definition plift {W A} (r : result A) : prog W A := λ w, (r, w).

#[global] Instance result_ret : MRet result := λ A a, Ok a.
#[global] Instance result_bind : MBind result := λ A B k r, rbind r k.
#[global] Instance result_fmap : FMap result := λ A B f r, rbind r (λ a, Ok (f a)).
#[global] Instance prog_ret {W} : MRet (prog W) := λ A a, pret a.
#[global] Instance prog_bind {W} : MBind (prog W) := λ A B k c, pbind c k.

(** [for x in xs: body x] *)
Fixpoint pfor {W A} (xs : list A) (body : A → prog W unit) : prog W unit :=
  match xs with
  | [] => pret ()
  | x :: xs' => pbind (body x) (λ _, pfor xs' body)
  end.

(** [enumerate(xs)] *)
Definition enumerate {A} (xs : list A) : list (nat * A) :=
  zip (seq 0 (length xs)) xs.

(** *** Strings *)

Definition nl : string := String "010"%char "".

(** [sep.join(parts)] *)
Fixpoint py_join (sep : string) (parts : list string) : string :=
  match parts with
  | [] => ""
  | [p] => p
  | p :: rest => p +:+ sep +:+ py_join sep rest
  end.

(** An f-string field showing a value that may be [None]. *)
Definition fmt_opt (o : option string) : string := default "None" o.

(** [c in s] for a one-character needle. *)
Fixpoint has_char (c : ascii) (s : string) : bool :=
  match s with
  | EmptyString => false
  | String d s' => if decide (c = d) then true else has_char c s'
  end.

(** [s.startswith(p)], [s.endswith(p)], [s[n:]] *)
Definition startswith (s p : string) : bool := String.prefix p s.
Definition endswith (s p : string) : bool :=
  String.prefix (String.rev p) (String.rev s).
Fixpoint str_from (n : nat) (s : string) : string :=
  match n, s with
  | O, _ => s
  | S n', String _ s' => str_from n' s'
  | S _, EmptyString => EmptyString
  end.


(** [os.path.join(a, b)] for a relative [b] (posix). *)
Definition path_join (a b : string) : string :=
  if decide (a = "") then b
  else if endswith a "/" then a +:+ b
  else a +:+ "/" +:+ b.

(** [s.split()]: maximal runs of non-blank characters. *)
Definition is_space (c : ascii) : bool :=
  let n := nat_of_ascii c in
  Nat.eqb n 32 || (Nat.leb 9 n && Nat.leb n 13).

Fixpoint py_split_aux (tok : option string) (s : string) : list string :=
  match s with
  | EmptyString =>
      match tok with
      | Some t => [String.rev t]
      | None => []
      end
  | String c s' =>
      if is_space c then
        match tok with
        | Some t => String.rev t :: py_split_aux None s'
        | None => py_split_aux None s'
        end
      else py_split_aux (Some (String c (default "" tok))) s'
  end.

Definition py_split (s : string) : list string := py_split_aux None s.

(** [s.replace(old, new)] for a non-empty [old]: occurrences are taken
    from the left and do not overlap. [skip] counts the characters of an
    occurrence still to be dropped. *)
Fixpoint py_replace_aux (old new : string) (skip : nat) (s : string) : string :=
  match s with
  | EmptyString => EmptyString
  | String c s' =>
      match skip with
      | S k => py_replace_aux old new k s'
      | O =>
          if String.prefix old s
          then new +:+ py_replace_aux old new (String.length old - 1) s'
          else String c (py_replace_aux old new 0 s')
      end
  end.

Definition py_replace (old new s : string) : string :=
  if decide (old = "") then s else py_replace_aux old new 0 s.

(** [int(s)] on text: blanks around, a sign, decimal digits, single
    underscores between digits. *)
Definition digit_of (c : ascii) : option Z :=
  let n := nat_of_ascii c in
  if Nat.leb 48 n && Nat.leb n 57 then Some (Z.of_nat (n - 48)) else None.

Fixpoint parse_digits (acc : Z) (after_digit : bool) (s : string) : option Z :=
  match s with
  | EmptyString => if after_digit then Some acc else None
  | String c s' =>
      match digit_of c with
      | Some d => parse_digits (acc * 10 + d) true s'
      | None =>
          if decide (c = "_"%char) then
            if after_digit then parse_digits acc false s' else None
          else None
      end
  end.

Fixpoint lstrip (s : string) : string :=
  match s with
  | EmptyString => EmptyString
  | String c s' => if is_space c then lstrip s' else s
  end.

Definition strip (s : string) : string :=
  String.rev (lstrip (String.rev (lstrip s))).

Definition py_int (s : string) : result Z :=
  let parsed :=
    match strip s with
    | String "+"%char s' => parse_digits 0 false s'
    | String "-"%char s' => Z.opp <$> parse_digits 0 false s'
    | s' => parse_digits 0 false s'
    end in
  match parsed with
  | Some n => Ok n
  | None => Raise (ValueError "invalid literal for int() with base 10")
  end.

(** [int(q)] on a float: truncation toward zero. *)
Definition py_trunc (q : Q) : Z :=
  if Qle_bool 0 q then Qfloor q else Qceiling q.

(** [q % n != 0] for a float [q] and an int [n]. *)
Definition fmod_nonzero (q : Q) (n : Z) : result bool :=
  if decide (n = 0%Z) then Raise (ZeroDivisionError "float modulo")
  else Ok (negb (Qeq_bool (q - inject_Z n * inject_Z (Qfloor (q / inject_Z n))) 0)).

(** pathlib: [Path(s).parent], [Path(s).stem]. *)
Fixpoint rsplit_char (sep : ascii) (s : string) : option string * string :=
  match s with
  | EmptyString => (None, EmptyString)
  | String c s' =>
      match rsplit_char sep s' with
      | (Some d, n) => (Some (String c d), n)
      | (None, n) => if decide (c = sep) then (Some EmptyString, n) else (None, String c n)
      end
  end.

Definition path_parent (s : string) : string :=
  match (rsplit_char "/"%char s).1 with
  | None => "."
  | Some EmptyString => "/"
  | Some d => d
  end.

Definition path_stem (s : string) : string :=
  let name := (rsplit_char "/"%char s).2 in
  match rsplit_char "."%char name with
  | (Some EmptyString, _) => name
  | (Some base, ext) => if decide (ext = "") then name else base
  | (None, _) => name
  end.

(** A [dict] with string keys: insertion order is kept, a key that is
    set again keeps its place. *)
Fixpoint dict_set {V} (k : string) (v : V) (d : list (string * V)) : list (string * V) :=
  match d with
  | [] => [(k, v)]
  | (k', v') :: d' => if decide (k' = k) then (k, v) :: d' else (k', v') :: dict_set k v d'
  end.

Fixpoint dict_get {V} (k : string) (d : list (string * V)) : result V :=
  match d with
  | [] => Raise (KeyError k)
  | (k', v') :: d' => if decide (k' = k) then Ok v' else dict_get k d'
  end.

(** ** radmtx.py *)

Module Radmtx.

(** Interfaces of the modules radmtx.py imports. *)
Class Radgeom : Type := {
  Polygon : Type;
  Vector : Type;
  normal : Polygon → Vector;
  scale : Vector → Q → Vector;
  vertices : Polygon → list Vector;
  vadd : Vector → Vector → Vector;
  mkPolygon : list Vector → Polygon;
  to_real : Polygon → string
}.

(** A primitive as the dictionary radutil hands out. *)
Record prim `{Radgeom} : Type := Prim {
  modifier : string;
  ptype : string;
  identifier : string;
  str_args : string;
  real_args : string;
  polygon : Polygon
}.

Class Radutil `{Radgeom} : Type := {
  up_vector : list prim → string;
  put_primitive : prim → string
}.

Class Makesky : Type := {
  basis_glow : string → string
}.

(** [tempfile.mkstemp(prefix=...)]: the name it picks, given the files
    that exist. *)
Class Tempfile : Type := {
  mkstemp_name : string → gmap string string → string
}.

(** The shell behind [subprocess.run(cmd, shell=True)]: exit status and
    the files the command leaves. *)
Class Shell : Type := {
  shell : string → gmap string string → Z * gmap string string
}.

Module Sender.
Record t : Type := Make {
  form : string;
  sender : string;
  path : string;
  offset : option Q;
  basis : option string;
  xres : option string;
  yres : option string;
  c2c : option bool;
  linecnt : option nat
}.
End Sender.

Module Receiver.
Record t : Type := Make {
  receiver : string;
  path : string;
  basis : string;
  modifier : option string
}.
End Receiver.

(** Files on disk, Receiver objects by reference, commands run. *)
Record world : Type := World {
  files : gmap string string;
  heap : gmap nat Receiver.t;
  procs : list string
}.

Definition set_files (fs : gmap string string) (w : world) : world :=
  World fs (heap w) (procs w).
Definition set_heap (h : gmap nat Receiver.t) (w : world) : world :=
  World (files w) h (procs w).

(** [os.remove(path)] *)
Definition os_remove (path : string) : prog world unit :=
  λ w, match files w !! path with
       | Some _ => (Ok (), set_files (delete path (files w)) w)
       | None => (Raise (FileNotFoundError path), w)
       end.

(** [with open(path, 'w') as wtr: wtr.write(text)] *)
Definition write_file (path text : string) : prog world unit :=
  λ w, (Ok (), set_files (<[path := text]> (files w)) w).

(** [fd, path = tf.mkstemp(prefix=...)]: the file is created empty. *)
Definition mkstemp `{Tempfile} (prefix : string) : prog world string :=
  λ w, let path := mkstemp_name prefix (files w) in
       (Ok path, set_files (<[path := ""]> (files w)) w).

(** [sp.run(cmd, shell=True)]: no [check=True], so a non-zero exit
    status is returned, not raised. *)
Definition sp_run `{Shell} (cmd : string) : prog world Z :=
  λ w, let '(status, fs) := shell cmd (files w) in
       (Ok status, World fs (heap w) (procs w ++ [cmd])).

(** [Receiver(...)]: a new object; its reference is returned. *)
Definition Receiver_init (path receiver basis : string)
    (modifier : option string) : prog world nat :=
  λ w, let r := fresh (dom (heap w)) in
       (Ok r, set_heap (<[r := Receiver.Make receiver path basis modifier]> (heap w)) w).

(** A reference held by a running program always points to an object;
    the error branch is for references that were never handed out. *)
Definition deref (r : nat) : prog world Receiver.t :=
  λ w, match heap w !! r with
       | Some o => (Ok o, w)
       | None => (Raise (NameError "no such object"), w)
       end.

(** [obj.receiver = text] *)
Definition setattr_receiver (r : nat) (text : string) : prog world unit :=
  λ w, match heap w !! r with
       | Some o =>
           let o' := Receiver.Make text (Receiver.path o) (Receiver.basis o)
                       (Receiver.modifier o) in
           (Ok (), set_heap (<[r := o']> (heap w)) w)
       | None => (Raise (NameError "no such object"), w)
       end.

(** [Receiver.__add__]:
<<
    self.receiver += other.receiver
    return self
>> *)
Definition __add__ (self other : nat) : prog world nat :=
  a ← deref self;
  b ← deref other;
  _ ← setattr_receiver self (Receiver.receiver a +:+ Receiver.receiver b);
  mret self.

(** [Receiver.as_sky] *)
Definition as_sky `{Makesky} `{Tempfile} (basis : string) : prog world nat :=
  if negb (startswith basis "r")
  then praise (AssertionError "Sky basis need to be Treganza/Reinhart")
  else
    let sky_str := basis_glow basis in
    path ← mkstemp "sky";
    _ ← write_file path sky_str;
    Receiver_init path sky_str basis None.

(** [Sender.remove], [Receiver.remove] *)
Definition Sender_remove (self : Sender.t) : prog world unit :=
  os_remove (Sender.path self).

Definition Receiver_remove (self : Receiver.t) : prog world unit :=
  _ ← match Receiver.modifier self with
      | Some m => os_remove m
      | None => mret ()
      end;
  os_remove (Receiver.path self).

(** *** prepare_surface *)

Section PrepareSurface.
Context `{RU : Radutil}.

(** First loop of the function: a member whose identifier is one of
    the members' (original) modifiers is renamed.
<<
    for p in prims:
        if p['identifier'] in modifiers:
            p['identifier'] = 'discarded'
>> *)
Definition discard_named (modifiers : list string) (p : prim) : prim :=
  if decide (identifier p ∈ modifiers)
  then {| modifier := modifier p; ptype := ptype p; identifier := "discarded";
          str_args := str_args p; real_args := real_args p; polygon := polygon p |}
  else p.

(** Second loop: [p['modifier'] = src_mod]. *)
Definition set_modifier (src_mod : string) (p : prim) : prim :=
  {| modifier := src_mod; ptype := ptype p; identifier := identifier p;
     str_args := str_args p; real_args := real_args p; polygon := polygon p |}.

(** Body of the offset loop: the polygon is moved along its normal and
    written back as the real arguments. *)
Definition offset_member (offset : Q) (p : prim) : prim :=
  let pg := polygon p in
  let offset_vec := scale (normal pg) offset in
  let moved_pts := map (λ pt, vadd pt offset_vec) (vertices pg) in
  {| modifier := modifier p; ptype := ptype p; identifier := identifier p;
     str_args := str_args p; real_args := to_real (mkPolygon moved_pts);
     polygon := polygon p |}.

Definition concat_str (parts : list string) : string :=
  foldr String.append "" parts.

(** The function returns the staged text; the member dictionaries are
    mutated in place, so their final state is returned with it. *)
Definition prepare_surface (prims : list prim) (basis : option string)
    (left : bool) (offset : option Q) (source out : option string)
  : result (string * list prim) :=
  match basis with
  | None => Raise (AssertionError "Sampling basis cannot be None")
  | Some basis0 =>
      let upvector := up_vector prims in
      let basis := if left then "-" +:+ basis0 else basis0 in
      match prims with
      | [] => Raise (IndexError "list index out of range")
      | p0 :: _ =>
          let src_mod := "rflx" +:+ modifier p0 in
          let header := "#@rfluxmtx h=" +:+ basis +:+ " u=" +:+ upvector +:+ nl in
          let header :=
            match out with
            | Some o => header +:+ "#@rfluxmtx o=" +:+ o +:+ nl +:+ nl
            | None => header
            end in
          let header :=
            match source with
            | Some src =>
                header +:+ "void " +:+ src +:+ " " +:+ src_mod +:+ nl
                       +:+ "0" +:+ nl +:+ "0" +:+ nl +:+ "4 1 1 1 0" +:+ nl +:+ nl
            | None => header
            end in
          let modifiers := map modifier prims in
          let prims1 := map (discard_named modifiers) prims in
          let prims2 := map (set_modifier src_mod) prims1 in
          let prims3 :=
            match offset with
            | Some off => map (offset_member off) prims2
            | None => prims2
            end in
          let content := concat_str (map put_primitive prims3) in
          Ok (header +:+ content, prims3)
      end
  end.
End PrepareSurface.

(** *** gen_mtx *)

(** [opt] is a string of options for a surface sender and a dictionary
    for the other forms. *)
Inductive optv : Type :=
| OptStr (s : string)
| OptDict (d : list (string * Z)).

(** [f"{opt}"] *)
Definition fmt_optv (opt : optv) : string :=
  match opt with
  | OptStr s => s
  | OptDict d =>
      "{" +:+ py_join ", " (map (λ kv, "'" +:+ kv.1 +:+ "': " +:+ pretty kv.2) d) +:+ "}"
  end.

(** ['c' in opt] *)
Definition opt_has_c (opt : optv) : bool :=
  match opt with
  | OptStr s => has_char "c"%char s
  | OptDict d => bool_decide ("c" ∈ map fst d)
  end.

(** [int(opt['c'])] *)
Definition opt_get_c (opt : optv) : result Z :=
  match opt with
  | OptStr _ => Raise (TypeError "string indices must be integers")
  | OptDict d =>
      match list_find (λ kv, kv.1 = "c") d with
      | Some (_, kv) => Ok kv.2
      | None => Raise (KeyError "c")
      end
  end.

(** The command line, or the exception raised before it is run. *)
Definition gen_mtx_cmd (sender : Sender.t) (receiver : Receiver.t)
    (env : list string) (out : option string) (opt : optv) : result string :=
  if decide (Sender.form sender = "srf") then
    Ok ("rfluxmtx " +:+ fmt_optv opt +:+ " " +:+ Sender.path sender +:+ " "
          +:+ Receiver.path receiver +:+ " " +:+ py_join " " env
          +:+ " > " +:+ fmt_opt out)
  else
    let cmd := "rfluxmtx < " +:+ Sender.path sender +:+ " " +:+ fmt_optv opt +:+ " " in
    '(cmd, out) ←
      (if decide (Sender.form sender = "pts") then
         _ ← (if opt_has_c opt then
                c ← opt_get_c opt;
                if decide (c = 1%Z) then Ok ()
                else Raise (AssertionError "ray count can't be greater than 1")
              else Ok ());
         Ok (cmd +:+ "-I+ -faf -y " +:+ fmt_opt (pretty <$> Sender.linecnt sender) +:+ " ",
             fmt_opt out)
       else if decide (Sender.form sender = "vu") then
         match out with
         | None => Raise (TypeError "expected str, bytes or os.PathLike object, not NoneType")
         | Some o =>
             Ok (cmd +:+ "-ffc -x " +:+ fmt_opt (Sender.xres sender) +:+ " -y "
                     +:+ fmt_opt (Sender.yres sender) +:+ " -ld- ",
                 path_join o "%04d.hdr")
         end
       else Ok (cmd, fmt_opt out));
    Ok (cmd +:+ "-o " +:+ out +:+ " - " +:+ Receiver.path receiver
            +:+ " " +:+ py_join " " env).

(**
<<
    sp.run(cmd, shell=True)
    sender.remove()
    receiver.remove()
>> *)
Definition gen_mtx `{Shell} (sender : Sender.t) (receiver : Receiver.t)
    (env : list string) (out : option string) (opt : optv) : prog world unit :=
  cmd ← plift (gen_mtx_cmd sender receiver env out opt);
  _ ← sp_run cmd;
  _ ← Sender_remove sender;
  Receiver_remove receiver.

(** *** The other constructors and the sun matrix *)

(** [makesky.Gensun(n)]: what [gen_full()] and [gen_cull(smx_path=,
    window_paths=)] return, the receiver text and the modifier lines. *)
Class Gensun : Type := {
  gen_full : Z → string * string;
  gen_cull : Z → option string → option (list string) → string * string
}.

(** The platform: [os.name == "posix"], [os.linesep], and [str(x)] of a
    number. *)
Class Platform : Type := {
  os_posix : bool;
  linesep : string;
  str_num : Q → string
}.

(** [s[-1]] *)
Definition last_char (s : string) : result string :=
  match String.rev s with
  | EmptyString => Raise (IndexError "string index out of range")
  | String c _ => Ok (String c "")
  end.

(** [Receiver.as_sun] *)
Definition as_sun `{Gensun} `{Tempfile} (basis : string) (smx_path : option string)
    (window_paths : option (list string)) : prog world nat :=
  d ← plift (last_char basis);
  n ← plift (py_int d);
  let texts :=
    match smx_path, window_paths with
    | None, None => gen_full n
    | _, _ => gen_cull n smx_path window_paths
    end in
  let str_repr := texts.1 in
  let mod_lines := texts.2 in
  path ← mkstemp "sun";
  modifier ← mkstemp "mod";
  _ ← write_file path str_repr;
  _ ← write_file modifier mod_lines;
  Receiver_init path str_repr basis (Some modifier).

(** [Sender.as_pts] *)
Definition as_pts `{Platform} `{Tempfile} (pts_list : list (list Q))
  : prog world Sender.t :=
  let grid_str :=
    py_join linesep (map (λ l, py_join " " (map str_num l)) pts_list) +:+ linesep in
  path ← mkstemp "sndr_grid";
  _ ← write_file path grid_str;
  mret (Sender.Make "pts" grid_str path None None None None None
          (Some (length pts_list))).

Definition dq : string := String "034"%char "".

(** [Sender.crop2circle] *)
Definition crop2circle `{Platform} (ray_cnt : Z) (xres : string) : string :=
  let cmd := "| rcalc -if6 -of " in
  let cmd := cmd +:+ "-e " +:+ dq +:+ "DIM:" +:+ xres +:+ ";CNT:" +:+ pretty ray_cnt
                 +:+ dq +:+ " " in
  let cmd := cmd +:+ "-e " +:+ dq +:+ "pn=(recno-1)/CNT+.5" +:+ dq +:+ " " in
  let cmd := cmd +:+ "-e " +:+ dq +:+ "frac(x):x-floor(x)" +:+ dq +:+ " -e " +:+ dq
                 +:+ "xpos=frac(pn/DIM);ypos=pn/(DIM*DIM)" +:+ dq in
  let cmd := cmd +:+ " -e " +:+ dq
                 +:+ "incir=if(.25-(xpos-.5)*(xpos-.5)-(ypos-.5)*(ypos-.5),1,0)" +:+ dq in
  let cmd := cmd +:+ " -e " +:+ dq
                 +:+ "$1=$1;$2=$2;$3=$3;$4=$4*incir;$5=$5*incir;$6=$6*incir" +:+ dq in
  if os_posix then py_replace dq "'" cmd else cmd.

(** ['{}'.format(env)] for a list of plain strings. *)
Definition fmt_list (l : list string) : string :=
  "[" +:+ py_join ", " (map (λ s, "'" +:+ s +:+ "'") l) +:+ "]".

(** sun_oct *)
Definition sun_oct `{Shell} `{Tempfile} (receiver : Receiver.t) (env : list string)
  : prog world string :=
  _env ← mkstemp "tmp";
  let ocmd := "oconv " +:+ fmt_list env +:+ " " +:+ Receiver.path receiver
                +:+ " > " +:+ _env in
  _ ← sp_run ocmd;
  mret _env.

(** sun_mtx: for a point-grid sender [cmd] is assigned, not extended. *)
Definition sun_mtx `{Shell} `{Tempfile} (sender : Sender.t) (receiver : Receiver.t)
    (env : list string) (out : option string) (opt : optv) : prog world unit :=
  _env ← sun_oct receiver env;
  let cmd := "rcontrib < " +:+ Sender.path sender +:+ " " +:+ fmt_optv opt +:+ " -fo+ " in
  co ← plift
    (if decide (Sender.form sender = "pts") then Ok ("-faf ", fmt_opt out)
     else if decide (Sender.form sender = "vu") then
       match out with
       | None => Raise (TypeError "expected str, bytes or os.PathLike object, not NoneType")
       | Some o =>
           Ok (cmd +:+ "-ffc -x " +:+ fmt_opt (Sender.xres sender) +:+ " -y "
                   +:+ fmt_opt (Sender.yres sender) +:+ " ",
               path_join o "%04d.hdr")
       end
     else Ok (cmd, fmt_opt out));
  let cmd := co.1 +:+ "-o " +:+ co.2 +:+ " -M " +:+ fmt_opt (Receiver.modifier receiver)
                  +:+ " " +:+ _env in
  _ ← sp_run cmd;
  mret ().

End Radmtx.

(** ** Python lists of floats and generic list operations *)

Definition Qlt_bool (a b : Q) : bool := negb (Qle_bool b a).

(** [min(xs)]: the running best is replaced only by a strictly smaller
    item, so the first of several equal minima is kept. *)
Fixpoint py_min_from (best : Q) (xs : list Q) : Q :=
  match xs with
  | [] => best
  | a :: xs' => py_min_from (if Qlt_bool a best then a else best) xs'
  end.

Definition py_min (xs : list Q) : result Q :=
  match xs with
  | [] => Raise (ValueError "min() arg is an empty sequence")
  | a :: xs' => Ok (py_min_from a xs')
  end.

(** [xs.index(v)] with [==] given by [eqb]: the first position holding
    an equal item. *)
Fixpoint py_index {A} (eqb : A → A → bool) (v : A) (xs : list A) : result nat :=
  match xs with
  | [] => Raise (ValueError "value is not in list")
  | a :: xs' => if eqb a v then Ok O else S <$> py_index eqb v xs'
  end.

(** [xs[i]] *)
Definition py_nth {A} (xs : list A) (i : nat) : result A :=
  match xs !! i with
  | Some a => Ok a
  | None => Raise (IndexError "list index out of range")
  end.

(** [del xs[i]] *)
Definition py_del {A} (i : nat) (xs : list A) : result (list A) :=
  if decide (i < length xs) then Ok (delete i xs)
  else Raise (IndexError "list assignment index out of range").

(** [xs.remove(v)]: drops the first item equal to [v]. *)
Fixpoint py_remove {A} `{EqDecision A} (v : A) (xs : list A) : result (list A) :=
  match xs with
  | [] => Raise (ValueError "list.remove(x): x not in list")
  | a :: xs' => if decide (a = v) then Ok xs' else cons a <$> py_remove v xs'
  end.

(** [len(set(xs))] is the length of this list: items are inserted from
    left to right and an item equal to a stored one is not stored
    (equal items are taken to hash alike). *)
Definition py_set_add {A} (eqb : A → A → bool) (s : list A) (a : A) : list A :=
  if existsb (λ b, eqb b a) s then s else s ++ [a].

Definition py_set {A} (eqb : A → A → bool) (xs : list A) : list A :=
  foldl (py_set_add eqb) [] xs.

(** [[f(x) for x in xs]] for an [f] that can raise. *)
Fixpoint result_map {A B} (f : A → result B) (xs : list A) : result (list B) :=
  match xs with
  | [] => Ok []
  | a :: xs' => b ← f a; bs ← result_map f xs'; Ok (b :: bs)
  end.

(** [round(q, 1)]: to the nearest tenth, ties to the even tenth. *)
Definition round_half_even (t : Q) : Z :=
  let f := Qfloor t in
  let r := (t - inject_Z f)%Q in
  match (r ?= 1 # 2)%Q with
  | Lt => f
  | Gt => (f + 1)%Z
  | Eq => if Z.even f then f else (f + 1)%Z
  end.

Definition round1 (q : Q) : Q := (inject_Z (round_half_even (q * 10)) / 10)%Q.

(** ** ncp.py *)

Module Ncp.

(** frads.types.Primitive *)
Record Primitive : Type := MkPrimitive {
  modifier : string;
  ptype : string;
  identifier : string;
  str_arg : string;
  real_arg : string
}.

(** geom.Vector: three float components. *)
Record Vector : Type := MkVector { x : Q; y : Q; z : Q }.

(** The part of [geom] that ncp.py uses. *)
Class Geom : Type := {
  Polygon : Type;
  Polygon_eq_dec :: EqDecision Polygon;
  normal : Polygon → Vector;
  vertices : Polygon → list Vector;
  area : Polygon → Q;
  rotate : Polygon → Vector → Q → Polygon;
  move : Polygon → Vector → Polygon;
  flip : Polygon → Polygon;
  to_real : Polygon → string;
  getbbox : list Polygon → Q → list Polygon;
  convexhull : list Vector → Vector → Polygon;
  vscale : Vector → Q → Vector;
  vreverse : Vector → Vector;
  veqb : Vector → Vector → bool;
  to_list : Vector → list Q
}.

(** [parsers.parse_polygon], [utils.polygon2prim],
    [utils.unpack_primitives], [str(prim)]. *)
Class Scene `{Geom} : Type := {
  parse_polygon : string → Polygon;
  polygon2prim : Polygon → string → string → Primitive;
  unpack_primitives : string → list Primitive;
  prim_str : Primitive → string
}.

(** [math.radians(deg)] and [math.log(n, base)] for [n > 0]. *)
Class MathLib : Type := {
  radians : nat → Q;
  log : Z → Z → Q
}.

Section Ports.
Context `{SC : Scene} `{ML : MathLib}.

(** [(abs(wn.y) == 1) or (abs(wn.x) == 1)] *)
Definition axis_aligned (wn : Vector) : bool :=
  Qeq_bool (Qabs (y wn)) 1 || Qeq_bool (Qabs (x wn)) 1.

Definition zaxis : Vector := MkVector 0 0 1.

(** [rm_pg = [xax, _yax, _xax, yax]] *)
Definition rm_pg : list (list Q) :=
  [ [1; 0; 0]; [0; -1; 0]; [-1; 0; 0]; [0; 1; 0] ]%Q.

(** [==] on two lists of numbers. *)
Fixpoint list_Qeqb (u v : list Q) : bool :=
  match u, v with
  | [], [] => true
  | a :: u', b :: v' => Qeq_bool a b && list_Qeqb u' v'
  | _, _ => false
  end.

(** The bounding box computed in the loop body for [deg]: window and
    shading polygons turned about +Z, offset 0.001. *)
Definition rotated_bbox (wp : Polygon) (np : list Polygon) (deg : nat)
  : list Polygon :=
  let rad := radians deg in
  let win_polygon_r := rotate wp zaxis rad in
  let ncs_polygon_r := map (λ p, rotate p zaxis rad) np ++ [win_polygon_r] in
  getbbox ncs_polygon_r (1 # 1000).

(** One turn of the loop [for deg in range(90)]: the rotated window
    normal, the bounding box, and the area of its first face. *)
Definition search_step (wp : Polygon) (np : list Polygon) (deg : nat)
  : result (Vector * list Polygon * Q) :=
  let rad := radians deg in
  let win_polygon_r := rotate wp zaxis rad in
  let _bbox := rotated_bbox wp np deg in
  match _bbox with
  | [] => Raise (IndexError "list index out of range")
  | face0 :: _ => Ok (normal win_polygon_r, _bbox, area face0)
  end.

(** [deg = area_list.index(min(area_list))] *)
Definition select_deg (area_list : list Q) : result nat :=
  m ← py_min area_list;
  py_index Qeq_bool m area_list.

(** Lines 650-657: the steps after the search, for the selected
    angle. *)
Definition rotate_to_position (steps : list (Vector * list Polygon * Q))
    (deg : nat) : result (list Polygon) :=
  let win_normals := map (λ s, s.1.1) steps in
  let bboxes := map (λ s, s.1.2) steps in
  let rrad := radians deg in
  bbox ← py_nth bboxes deg;
  wnd ← py_nth win_normals deg;
  let _win_normal := map round1 (to_list wnd) in
  i ← py_index list_Qeqb _win_normal rm_pg;
  bbox ← py_del (i + 2) bbox;
  Ok (map (λ pg, rotate pg zaxis (rrad * -1)) bbox).

(** The axis-aligned branch (lines 626-630). *)
Definition aligned_ports (wp : Polygon) (np : list Polygon)
  : result (list Polygon) :=
  let wn := normal wp in
  let np := np ++ [wp] in
  let bbox := getbbox np 0 in
  face ← py_nth (List.filter (λ b, veqb (vreverse (normal b)) wn) bbox) 0;
  bbox ← py_remove face bbox;
  Ok (map (λ b, move b (vscale wn (-1 # 10))) bbox).

Definition gen_ports_from_window_ncp (wp : Polygon) (np : list Polygon)
  : result (list Polygon) :=
  let wn := normal wp in
  if axis_aligned wn then aligned_ports wp np
  else
    steps ← result_map (search_step wp np) (seq 0 90);
    let area_list := map snd steps in
    deg ← select_deg area_list;
    rotate_to_position steps deg.

(** merge_windows *)
Definition merge_windows (prims : list Primitive) : result Primitive :=
  let polygons := map (λ p, parse_polygon (real_arg p)) prims in
  let normals := map normal polygons in
  if decide (1 < length (py_set veqb normals))
  then Raise (ValueError "Windows not co-planar")
  else
    let points := concat (map vertices polygons) in
    n0 ← py_nth normals 0;
    let hull_polygon := convexhull points n0 in
    p0 ← py_nth prims 0;
    Ok (polygon2prim hull_polygon (modifier p0) (identifier p0)).

(** gen_port_prims_from_window_ncp *)
Definition gen_port_prims_from_window_ncp (wprim nprim : list Primitive)
  : result (list Primitive) :=
  awprim ← (if decide (1 < length wprim) then merge_windows wprim
            else py_nth wprim 0);
  let wplg := parse_polygon (real_arg awprim) in
  let nplgs := map (λ p, parse_polygon (real_arg p))
                   (List.filter (λ p, bool_decide (ptype p = "polygon")) nprim) in
  all_ports ← gen_ports_from_window_ncp wplg nplgs;
  Ok (map (λ ip, polygon2prim ip.2 "port" ("portf" +:+ pretty (ip.1 + 1)))
          (enumerate all_ports)).
End Ports.

(** *** The transfer passes and the entry point *)

(** The part of [matrix] that ncp.py uses.  [surface_as_sender] and
    [surface_as_receiver] build the endpoint, [receiver_add] is the [+]
    behind [+=], [rfluxmtx] is the simulator invocation: it can fail and
    it leaves files. *)
Class Matrix : Type := {
  Sender : Type;
  Receiver : Type;
  surface_as_sender : list Primitive → string → bool → option Q → Sender;
  surface_as_receiver :
    list Primitive → string → bool → option Q → string → string → Receiver;
  receiver_add : Receiver → Receiver → Receiver;
  rfluxmtx : Sender → Receiver → list string → option string →
             gmap string string → result unit * gmap string string
}.

(** The host: [os.name == "posix"], the name [tempfile] picks for a new
    directory, and what a child process prints, given its arguments, its
    input and the files. *)
Class Host : Type := {
  posix : bool;
  mkdtemp_name : gmap string string → string;
  proc_stdout : list string → string → gmap string string → string
}.

(** The dataclass [Model]. *)
Record Model : Type := MkModel {
  windows : list Primitive;
  ports : list Primitive;
  env : list string;
  sbasis : string;
  rbasis : string
}.

(** An item of an argument list handed to [subprocess.run]. *)
Inductive arg : Type :=
| AStr (s : string)
| AInt (n : Z)
| AFloat (q : Q).

Section Pipeline.
Context `{SC : Scene} `{ML : MathLib} `{MX : Matrix} `{HO : Host}.

(** What the run has done so far, oldest first. *)
Inductive event : Type :=
| SenderBuilt (s : Sender)
| ReceiverBuilt (r : Receiver)
| Invoked (s : Sender) (r : Receiver) (env : list string) (opt : option string)
| Spawned (cmd : list string).

Record world : Type := World {
  files : gmap string string;
  events : list event
}.

(** The simulator invocations among the events of a world. *)
Definition is_invocation (e : event) : bool :=
  match e with
  | Invoked _ _ _ _ => true
  | _ => false
  end.

Definition invocations (w : world) : nat :=
  length (List.filter is_invocation (events w)).

Definition emit (e : event) : prog world unit :=
  λ w, (Ok (), World (files w) (events w ++ [e])).

Definition build_sender (prim_list : list Primitive) (basis : string)
    (left : bool) (offset : option Q) : prog world Sender :=
  let s := surface_as_sender prim_list basis left offset in
  _ ← emit (SenderBuilt s); mret s.

Definition build_receiver (prim_list : list Primitive) (basis : string)
    (left : bool) (offset : option Q) (source out : string) : prog world Receiver :=
  let r := surface_as_receiver prim_list basis left offset source out in
  _ ← emit (ReceiverBuilt r); mret r.

(** [matrix.rfluxmtx(sender=, receiver=, env=, out=None, opt=)] *)
Definition invoke (sndr : Sender) (rcvr : Receiver) (env : list string)
    (opt : option string) : prog world unit :=
  λ w, let '(r, fs) := rfluxmtx sndr rcvr env opt (files w) in
       (r, World fs (events w ++ [Invoked sndr rcvr env opt])).

Definition write_file (path text : string) : prog world unit :=
  λ w, (Ok (), World (<[path := text]> (files w)) (events w)).

Definition read_file (path : string) : prog world string :=
  λ w, match files w !! path with
       | Some text => (Ok text, w)
       | None => (Raise (FileNotFoundError path), w)
       end.

(** [file.rename(target)] *)
Definition rename (src dst : string) : prog world unit :=
  λ w, match files w !! src with
       | Some text => (Ok (), World (<[dst := text]> (delete src (files w))) (events w))
       | None => (Raise (FileNotFoundError src), w)
       end.

(** [sp.run(cmd, input=..., stdout=sp.PIPE)]: an argument that is not
    text is a [TypeError] and nothing is run. *)
Definition arg_text (a : arg) : option string :=
  match a with
  | AStr s => Some s
  | _ => None
  end.

Definition spawn (cmd : list arg) (input : string) : prog world string :=
  match mapM arg_text cmd with
  | Some argv =>
      λ w, (Ok (proc_stdout argv input (files w)),
            World (files w) (events w ++ [Spawned argv]))
  | None => praise (TypeError "expected str, bytes or os.PathLike object, not int")
  end.

(** [with open(path, "wb") as wtr: sp.run(cmd, input=..., stdout=wtr)] *)
Definition spawn_to (path : string) (cmd : list arg) (input : string)
  : prog world unit :=
  _ ← write_file path "";
  out ← spawn cmd input;
  write_file path out.

(** [with tf.TemporaryDirectory() as td: body]: the directory and what
    is in it are removed on every exit. *)
Definition with_tempdir {A} (body : string → prog world A) : prog world A :=
  λ w, let td := mkdtemp_name (files w) in
       let '(r, w') := body td w in
       (r, World (filter (λ kv, String.prefix (td +:+ "/") kv.1 = false) (files w'))
                 (events w')).

(** ncp_compute_back *)
Definition ncp_compute_back (model : Model) (src_dict : list (string * string))
    (opt : option string) (refl : bool) : prog world unit :=
  pfor (enumerate (windows model)) (λ iw,
    let idx := iw.1 in
    let wp := iw.2 in
    out ← plift (dict_get ("tb" +:+ pretty idx) src_dict);
    front_rcvr ← build_receiver (ports model) (rbasis model) true None "glow" out;
    sndr ← build_sender [wp] (sbasis model) true None;
    front_rcvr ←
      (if refl then
         let wflip := flip (parse_polygon (real_arg wp)) in
         let wflip_prim := polygon2prim wflip "breceiver" ("window" +:+ pretty idx) in
         out ← plift (dict_get ("rb" +:+ pretty idx) src_dict);
         back_rcvr ← build_receiver [wflip_prim] ("-" +:+ rbasis model) false None
                       "glow" out;
         mret (receiver_add front_rcvr back_rcvr)
       else mret front_rcvr);
    invoke sndr front_rcvr (env model) opt).

(** ncp_compute_front *)
Definition ncp_compute_front (model : Model) (src_dict : list (string * string))
    (opt : option string) (refl : bool) : prog world unit :=
  let sndr_prim :=
    map (λ p, MkPrimitive (modifier p) (ptype p) (identifier p) (str_arg p)
                (to_real (flip (parse_polygon (real_arg p)))))
        (ports model) in
  sndr ← build_sender sndr_prim ("-" +:+ rbasis model) false None;
  pfor (enumerate (windows model)) (λ iw,
    let idx := iw.1 in
    let wp := iw.2 in
    let wplg := flip (parse_polygon (real_arg wp)) in
    let rcvr_prim := polygon2prim wplg "breceiver" ("window" +:+ pretty idx) in
    out ← plift (dict_get ("tf" +:+ pretty idx) src_dict);
    rcvr ← build_receiver [rcvr_prim] ("-" +:+ sbasis model) false None "glow" out;
    rcvr ←
      (if refl then
         out ← plift (dict_get ("rf" +:+ pretty idx) src_dict);
         brcvr ← build_receiver (ports model) (rbasis model) false None "glow" out;
         mret (receiver_add rcvr brcvr)
       else mret rcvr);
    invoke sndr rcvr (env model) opt).

(** klems_wrap: the first loop runs [rmtxop] and [getinfo] for every
    key and window; the second loop reads [model.window], an attribute
    the dataclass does not have. *)
Definition klems_wrap (model : Model) (src_dict fwrap_dict : list (string * string))
    (out : string) : prog world unit :=
  _ ← pfor (map fst src_dict) (λ key,
        pfor (windows model) (λ _,
          inp ← plift (dict_get key src_dict);
          let rcmd := map AStr ["rmtxop"; "-fa"; "-t"; "-c"; ".265"; ".67"; ".065"; inp] in
          ps1 ← spawn rcmd "";
          dest ← plift (dict_get key fwrap_dict);
          spawn_to dest [AStr "getinfo"; AStr "-"] ps1));
  praise (AttributeError "'Model' object has no attribute 'window'").

Definition CIEuv : string :=
  "Xi=.5141*Ri+.3239*Gi+.1620*Bi;Yi=.2651*Ri+.6701*Gi+.0648*Bi;Zi=.0241*Ri+.1229*Gi+.8530*Bi;den=Xi+15*Yi+3*Zi;uprime=if(Yi,4*Xi/den,4/19);vprime=if(Yi,9*Yi/den,9/19);".

(** rttree_reduce.  For a [spec] other than the three handled, [cmd]
    is unbound and its first use raises. *)
Definition rttree_reduce (ttrank ttlog2 pctcull : Z) (refl : bool)
    (src dest spec : string) : prog world unit :=
  let ns2 := ((2 ^ ttlog2) ^ 2)%Z in
  let cmd0 : result (list arg) :=
    if decide (spec = "Visible") then
      Ok (map AStr ["rcalc"; "-e"; "Omega:PI/" +:+ pretty ns2; "-e";
                    "Ri=$1;Gi=$2;Bi=$3"; "-e"; CIEuv; "-e"; "$1=Yi/Omega"])
    else if decide (spec = "CIE-u") then
      Ok (map AStr ["rcalc"; "-e"; "Ri=$1;Gi=$2;Bi=$3"; "-e"; CIEuv; "-e"; "$1=uprime"])
    else if decide (spec = "CIE-v") then
      Ok (map AStr ["rcalc"; "-e"; "Ri=$1;Gi=$2;Bi=$3"; "-e"; CIEuv; "-e"; "$1=vprime"])
    else Raise (NameError "cannot access local variable 'cmd'") in
  let avg := if refl then "-a" else "" in
  let pcull :=
    if decide (spec = "Visible") then AInt pctcull
    else AFloat (100 - (100 - inject_Z pctcull) * (1 # 4)) in
  let rtcmd := [AStr "rttree_reduce"; AStr avg; AStr "-h"; AStr "-ff"; AStr "-t";
                pcull; AStr "-r"; AInt ttrank; AStr "-g"; AInt ttlog2] in
  if posix then
    cmd ← plift cmd0;
    let cmd :=
      match cmd with
      | a :: rest => a :: AStr "-if3" :: rest
      | [] => [AStr "-if3"]
      end in
    if decide (0 ≤ pctcull)%Z then
      let cmd := cmd ++ [AStr "-of"; AStr src] in
      ps1 ← spawn (cmd ++ [AStr "-of"; AStr src]) "";
      spawn_to dest rtcmd ps1
    else
      (* [sp.run(cmd.append(src), stdout=wtr)]: [append] returns [None] *)
      _ ← write_file dest "";
      praise (TypeError "'NoneType' object is not iterable")
  else
    if decide (0 ≤ pctcull)%Z then
      ps1 ← spawn (map AStr ["rcollate"; "-ho"; "-oc"; "1"; src]) "";
      cmd ← plift cmd0;
      ps2 ← spawn cmd ps1;
      spawn_to dest rtcmd ps2
    else
      ps1 ← spawn (map AStr ["rcollate"; "-ho"; "-oc"; "1"; src]) "";
      _ ← write_file dest "";
      cmd ← plift cmd0;
      out ← spawn cmd ps1;
      write_file dest out.

(** [math.log(sc, 2)] *)
Definition math_log2 (sc : Z) : result Q :=
  if decide (0 < sc)%Z then Ok (log sc 2)
  else Raise (ValueError "math domain error").

(** tt_wrap *)
Definition tt_wrap (model : Model) (src_dict fwrap_dict : list (string * string))
    (out : string) (refl : bool) : prog world unit :=
  sc ← plift (py_int (str_from 2 (rbasis model)));
  ttlog2 ← plift (math_log2 sc);
  nz ← plift (fmod_nonzero ttlog2 (py_trunc ttlog2));
  if nz : bool then praise (AssertionError "") else
  let ttrank := 4%Z in
  let pctcull := 90%Z in
  let ttlog2 := py_trunc ttlog2 in
  pfor (enumerate (windows model)) (λ iw,
    let i := iw.1 in
    let sub_key := List.filter (λ k, endswith k (pretty i)) (map fst src_dict) in
    sub_dict ← plift (result_map (λ k, v ← dict_get k fwrap_dict; Ok (k, v)) sub_key);
    _ ← pfor sub_key (λ key,
          src ← plift (dict_get key src_dict);
          dest ← plift (dict_get key fwrap_dict);
          rttree_reduce ttrank ttlog2 pctcull refl src dest "Visible");
    let cmd := map AStr ["wrapBSDF"; "-a"; "t4"; "-s"; "Visible"] in
    (* [" ".join(("-" + i[:2], j))] with [j] a [Path] *)
    cmd ← plift
      (match sub_dict with
       | [] => Ok cmd
       | _ :: _ => Raise (TypeError "sequence item 1: expected str instance, PosixPath found")
       end);
    (* [cmd += f"> {out}.xml"]: one item per character *)
    let cmd := cmd ++ map (λ c, AStr (String c ""))
                          (String.list_ascii_of_string ("> " +:+ out +:+ ".xml")) in
    spawn_to out cmd "").

Definition dq : string := String "034"%char "".

(** ['<Wavelength unit="Integral">name</Wavelength>'] *)
Definition wavelength_tag (name : string) : string :=
  "<Wavelength unit=" +:+ dq +:+ "Integral" +:+ dq +:+ ">" +:+ name +:+ "</Wavelength>".

(** Lines 258-292: the solar variant of the shading material is
    staged in a new directory. *)
Definition stage_solar (ncp_mat : Primitive) (all_prims : list Primitive)
  : prog world unit :=
  xmlpath ← plift (py_nth (py_split (str_arg ncp_mat)) 2);
  td ← (λ w, (Ok (mkdtemp_name (files w)), w));
  raw ← read_file xmlpath;
  let raw := py_replace (wavelength_tag "Visible") (wavelength_tag "Visible2") raw in
  let raw := py_replace (wavelength_tag "Solar") (wavelength_tag "Visible") raw in
  let raw := py_replace (wavelength_tag "Visible2") (wavelength_tag "Solar") raw in
  let solar_xml_path := path_join td "solar.xml" in
  _ ← write_file solar_xml_path raw;
  let _env_path := path_join td "env_solar.rad" in
  write_file _env_path (foldr String.append "" (map prim_str all_prims)).

(** Lines 294-304: the flag [klems] and the options, or the rejection
    of the resolution. *)
Definition tensor_tree_setup (model : Model) (wrap : bool) (opt : option string)
  : result (bool * option string) :=
  if wrap && startswith (rbasis model) "sc" && startswith (sbasis model) "sc" then
    sc ← py_int (str_from 2 (rbasis model));
    ttlog2 ← math_log2 sc;
    nz ← fmod_nonzero ttlog2 (py_trunc ttlog2);
    if nz : bool then Raise (ValueError "Invalid tensor tree resolution.")
    else
      Ok (false,
          match opt with
          | Some o => Some (o +:+ " -hd -ff")
          | None => Some "-hd -ff"
          end)
  else Ok (true, opt).

(** Lines 306-323: [src_dict] and [fwrap_dict]. *)
Definition stage_paths (td : string) (n : nat) (refl forw : bool)
  : list (string * string) * list (string * string) :=
  foldl (λ dicts idx,
           let add key (ds : list (string * string) * list (string * string)) :=
             (dict_set key (path_join td (key +:+ ".dat")) ds.1,
              dict_set key (path_join td (key +:+ "p.dat")) ds.2) in
           let _tf := "tf" +:+ pretty idx in
           let _rf := "rf" +:+ pretty idx in
           let _tb := "tb" +:+ pretty idx in
           let _rb := "rb" +:+ pretty idx in
           let ds := add _tb dicts in
           let ds := if forw then add _tf ds else ds in
           if refl then
             let ds := add _rb ds in
             if forw then add _rf ds else ds
           else ds)
        ([], []) (seq 0 n).

(** Lines 305-335, inside the temporary directory. *)
Definition run_passes (model : Model) (out : string) (opt : option string)
    (refl forw wrap klems : bool) (td : string) : prog world unit :=
  let dicts := stage_paths td (length (windows model)) refl forw in
  let src_dict := dicts.1 in
  let fwrap_dict := dicts.2 in
  _ ← ncp_compute_back model src_dict opt refl;
  _ ← (if forw then ncp_compute_front model src_dict opt refl else mret ());
  if wrap then
    if klems then klems_wrap model src_dict fwrap_dict out
    else tt_wrap model src_dict fwrap_dict out refl
  else
    pfor src_dict (λ kf,
      let out_name := path_stem out +:+ "_" +:+ kf.1 +:+ ".mtx" in
      rename kf.2 (path_join (path_parent out) out_name)).

(** The names the module binds at top level: its imports, the logger,
    the dataclass and the functions. *)
Definition module_globals : list string :=
  [ "dataclass"; "logging"; "math"; "os"; "Path"; "shutil"; "sp"; "tf";
    "List"; "Optional"; "Sequence"; "matrix"; "geom"; "parsers";
    "Primitive"; "utils"; "logger"; "Model"; "ncp_compute_back";
    "ncp_compute_front"; "klems_wrap"; "klems_wrap2"; "rttree_reduce";
    "tt_wrap"; "gen_ncp_mtx"; "gen_port_prims_from_window_ncp";
    "gen_port_prims_from_window"; "gen_ports_from_window_ncp";
    "merge_windows"; "__name__"; "__doc__"; "__package__"; "__loader__";
    "__spec__"; "__file__"; "__cached__"; "__builtins__" ].

(** Reading a name that the function does not assign.  It is looked
    up among the module's globals (no builtin has either of the two
    names read this way).  A name that is bound there is a module, a
    class, a function or the logger: it is neither a sequence of
    primitives nor a mapping. *)
Definition load_global {A} (name : string) : result A :=
  if bool_decide (name ∈ module_globals)
  then Raise (TypeError ("'" +:+ name +:+ "' is not a sequence or mapping"))
  else Raise (NameError ("name '" +:+ name +:+ "' is not defined")).

(** gen_ncp_mtx from line 243 on, for a given value of [ncp_prims]. *)
Definition gen_ncp_mtx_from (ncp_prims all_prims : list Primitive) (model : Model)
    (out : string) (opt : option string) (refl forw wrap solar : bool)
  : prog world unit :=
  ncp_mod ← plift
    (modifier <$> py_nth (List.filter (λ prim, bool_decide (ptype prim = "polygon"))
                                      ncp_prims) 0);
  let found := list_find (λ prim, identifier prim = ncp_mod) all_prims in
  let ncp_type := default "" ((λ ip, ptype ip.2) <$> found) in
  match found with
  | Some (_, ncp_mat) =>
      if decide (ncp_type = "") then praise (ValueError "Unknown NCP material")
      else
        let is_solar := solar && bool_decide (ncp_type = "BSDF") in
        _ ← (if is_solar then stage_solar ncp_mat all_prims else mret ());
        setup ← plift (tensor_tree_setup model wrap opt);
        _ ← with_tempdir (run_passes model out setup.2 refl forw wrap setup.1);
        if is_solar then plift (load_global "args") else mret ()
  | None => praise (ValueError "Unknown NCP material")
  end.

(** gen_ncp_mtx: the environment is read, then line 243 reads
    [ncp_prims]. *)
Definition gen_ncp_mtx (model : Model) (out : string) (opt : option string)
    (refl forw wrap solar : bool) : prog world unit :=
  let all_prims := concat (map unpack_primitives (env model)) in
  ncp_prims ← plift (load_global "ncp_prims");
  gen_ncp_mtx_from ncp_prims all_prims model out opt refl forw wrap solar.
End Pipeline.

End Ncp.

(** ** Sample instances of the interfaces

    Small concrete stand-ins for the imported modules, used to run the
    functions on concrete inputs. *)

Module Samples.

(** *** radmtx.py *)

Definition radgeom : Radmtx.Radgeom := {|
  Radmtx.Polygon := list (Q * Q * Q);
  Radmtx.Vector := Q * Q * Q;
  Radmtx.normal := λ _, (0, 0, 1)%Q;
  Radmtx.scale := λ v k, (v.1.1 * k, v.1.2 * k, v.2 * k)%Q;
  Radmtx.vertices := λ pg, pg;
  Radmtx.vadd := λ u v, (u.1.1 + v.1.1, u.1.2 + v.1.2, u.2 + v.2)%Q;
  Radmtx.mkPolygon := λ pts, pts;
  Radmtx.to_real := λ pg, pretty (length pg * 3)
|}.

Definition radutil : @Radmtx.Radutil radgeom := {|
  Radmtx.up_vector := λ _, "+Z";
  Radmtx.put_primitive := λ p,
    Radmtx.modifier p +:+ " " +:+ Radmtx.ptype p +:+ " " +:+ Radmtx.identifier p +:+ nl
      +:+ Radmtx.str_args p +:+ nl +:+ "0" +:+ nl +:+ Radmtx.real_args p +:+ nl
|}.

(** A simulator that always fails and leaves the files as they are. *)
Definition failing_shell : Radmtx.Shell := {|
  Radmtx.shell := λ _ fs, (1%Z, fs)
|}.

Definition unit_square : list (Q * Q * Q) :=
  [ (0, 0, 0); (1, 0, 0); (1, 1, 0); (0, 1, 0) ]%Q.

Definition pane (modifier identifier : string) : @Radmtx.prim radgeom :=
  @Radmtx.Prim radgeom modifier "polygon" identifier "0" "12" unit_square.

(** Two panes with the same identifier, and a pane named after the
    material of another. *)
Definition twin_panes : list (@Radmtx.prim radgeom) :=
  [ pane "glass" "pane"; pane "glass" "pane" ].

Definition pane_and_material : list (@Radmtx.prim radgeom) :=
  [ pane "glass" "pane"; pane "void" "glass" ].

(** Two receivers on the heap, each staged in its own file, and a
    surface sender staged in a third. *)
Definition sky_a : Radmtx.Receiver.t :=
  Radmtx.Receiver.Make "void glow a" "/tmp/rsrf_a" "kf" None.
Definition sky_b : Radmtx.Receiver.t :=
  Radmtx.Receiver.Make "void glow b" "/tmp/rsrf_b" "-kf" (Some "/tmp/mod_b").
Definition surface_sender : Radmtx.Sender.t :=
  Radmtx.Sender.Make "srf" "void polygon s" "/tmp/sndr_srf" None (Some "kf")
    None None None None.

Definition grid_sender : Radmtx.Sender.t :=
  Radmtx.Sender.Make "pts" "0 0 0 0 0 1" "/tmp/sndr_srf" None None None None None (Some 1).

Definition staged_world : Radmtx.world :=
  Radmtx.World
    (<["/tmp/rsrf_a" := "void glow a"]>
       (<["/tmp/rsrf_b" := "void glow b"]>
          (<["/tmp/mod_b" := "sun"]>
             (<["/tmp/sndr_srf" := "void polygon s"]> ∅))))
    (<[0 := sky_a]> (<[1 := sky_b]> ∅))
    [].

(** *** ncp.py *)

#[local] Instance Q_eq_dec : EqDecision Q.
Proof. solve_decision. Defined.
#[local] Instance Vector_eq_dec : EqDecision Ncp.Vector.
Proof. solve_decision. Defined.

(** A face that carries its normal, its area, the angle it was turned
    by and the vector it was moved by. *)
Record face : Type := Face {
  nrm : Ncp.Vector;
  size : Q;
  turn : Q;
  shift : Ncp.Vector
}.

#[local] Instance face_eq_dec : EqDecision face.
Proof. solve_decision. Defined.

Definition vec (a b c : Q) : Ncp.Vector := Ncp.MkVector a b c.

Definition vplus (u v : Ncp.Vector) : Ncp.Vector :=
  vec (Ncp.x u + Ncp.x v) (Ncp.y u + Ncp.y v) (Ncp.z u + Ncp.z v).

Definition vec_eqb (u v : Ncp.Vector) : bool :=
  Qeq_bool (Ncp.x u) (Ncp.x v) && Qeq_bool (Ncp.y u) (Ncp.y v)
    && Qeq_bool (Ncp.z u) (Ncp.z v).

(** The box around a set of faces: bottom, top, then the faces looking
    along -X, +Y, +X, -Y.  The first face is smallest when the last
    polygon of the set has been turned by 30. *)
Definition box (ps : list face) (offset : Q) : list face :=
  let t := default 0%Q (turn <$> last ps) in
  let front := ((t - 30) * (t - 30) + 1 + offset)%Q in
  [ Face (vec 0 0 (-1)) front t (vec 0 0 0);
    Face (vec 0 0 1) front t (vec 0 0 0);
    Face (vec (-1) 0 0) 2 t (vec 0 0 0);
    Face (vec 0 1 0) 3 t (vec 0 0 0);
    Face (vec 1 0 0) 2 t (vec 0 0 0);
    Face (vec 0 (-1) 0) 3 t (vec 0 0 0) ].

(** A turn by [rad] about +Z; the normal goes to +X once the turn
    reaches 30 or more (a coarse stand-in for the rotation). *)
Definition turned (p : face) (axis : Ncp.Vector) (rad : Q) : face :=
  let t := (turn p + rad)%Q in
  Face (if Qle_bool 30 t then vec 1 0 0 else nrm p) (size p) t (shift p).

Definition geom : Ncp.Geom := {|
  Ncp.Polygon := face;
  Ncp.normal := nrm;
  Ncp.vertices := λ p, [nrm p; shift p];
  Ncp.area := size;
  Ncp.rotate := turned;
  Ncp.move := λ p v, Face (nrm p) (size p) (turn p) (vplus (shift p) v);
  Ncp.flip := λ p, Face (vec (- Ncp.x (nrm p)) (- Ncp.y (nrm p)) (- Ncp.z (nrm p)))
                        (size p) (turn p) (shift p);
  Ncp.to_real := λ p, "12";
  Ncp.getbbox := box;
  Ncp.convexhull := λ pts n, Face n (inject_Z (Z.of_nat (length pts))) 0 (vec 0 0 0);
  Ncp.vscale := λ v k, vec (Ncp.x v * k) (Ncp.y v * k) (Ncp.z v * k);
  Ncp.vreverse := λ v, vec (- Ncp.x v) (- Ncp.y v) (- Ncp.z v);
  Ncp.veqb := vec_eqb;
  Ncp.to_list := λ v, [Ncp.x v; Ncp.y v; Ncp.z v]
|}.

(** Scene text: the real arguments of a window name its normal. *)
Definition face_of_text (s : string) : face :=
  if decide (s = "north") then Face (vec 0 1 0) 1 0 (vec 0 0 0)
  else if decide (s = "east") then Face (vec 1 0 0) 1 0 (vec 0 0 0)
  else if decide (s = "hull") then Face (vec 0 1 0) 4 0 (vec 0 0 0)
  else Face (vec (3 # 5) (4 # 5) 0) 1 0 (vec 0 0 0).

Definition face_to_prim (pg : face) (m i : string) : Ncp.Primitive :=
  Ncp.MkPrimitive m "polygon" i "0"
    (if decide (nrm pg = vec 0 1 0) then
       if decide (size pg = 1%Q) then "north" else "hull"
     else if decide (nrm pg = vec 1 0 0) then "east" else "oblique").

Definition scene : @Ncp.Scene geom :=
  @Ncp.Build_Scene geom face_of_text face_to_prim
    (λ path,
       [Ncp.MkPrimitive "void" "BSDF" "shade_mat" "6 0 shade.xml 0 0 1 ." "0";
        Ncp.MkPrimitive "shade_mat" "polygon" "shade" "0" "oblique"])
    (λ p, Ncp.modifier p +:+ " " +:+ Ncp.ptype p +:+ " " +:+ Ncp.identifier p +:+ nl).

(** [radians] leaves the angle in degrees; [log n 2] interpolates
    linearly between the powers of two, where it is exact. *)
Definition mathlib : Ncp.MathLib := {|
  Ncp.radians := λ deg, inject_Z (Z.of_nat deg);
  Ncp.log := λ n _,
    let k := Z.log2 n in
    (inject_Z k + inject_Z (n - 2 ^ k) / inject_Z (2 ^ k))%Q
|}.

Definition north_window : @Ncp.Polygon geom := Face (vec 0 1 0) 1 0 (vec 0 0 0).
Definition oblique_window : @Ncp.Polygon geom :=
  Face (vec (3 # 5) (4 # 5) 0) 1 0 (vec 0 0 0).
Definition louver : @Ncp.Polygon geom := Face (vec 0 0 1) 1 0 (vec 0 0 0).

Definition window_prim (identifier text : string) : Ncp.Primitive :=
  Ncp.MkPrimitive "glass" "polygon" identifier "0" text.

Definition two_north : list Ncp.Primitive :=
  [window_prim "left" "north"; window_prim "right" "north"].

(** An endpoint is described by what it was built from; the simulator
    writes the output file of every receiver part. *)
Definition matrix : Ncp.Matrix := {|
  Ncp.Sender := list Ncp.Primitive * string;
  Ncp.Receiver := list (list Ncp.Primitive * string * string);
  Ncp.surface_as_sender := λ prims basis left offset, (prims, basis);
  Ncp.surface_as_receiver := λ prims basis left offset source out, [(prims, basis, out)];
  Ncp.receiver_add := λ a b, a ++ b;
  Ncp.rfluxmtx := λ s r env opt fs,
    (Ok (), foldr (λ part fs, <[part.2 := "matrix"]> fs) fs r)
|}.

Definition host : Ncp.Host := {|
  Ncp.posix := true;
  Ncp.mkdtemp_name := λ _, "/tmp/td";
  Ncp.proc_stdout := λ _ _ _, ""
|}.

Definition empty_world : @Ncp.world matrix := Ncp.World ∅ [].

Definition sc6_model : Ncp.Model :=
  Ncp.MkModel [window_prim "window" "north"] [window_prim "port" "east"]
    ["room.rad"] "sc6" "sc6".

Definition kf_model : Ncp.Model :=
  Ncp.MkModel [window_prim "window" "north"] [window_prim "port" "east"]
    ["room.rad"] "kf" "kf".

(** *** More stand-ins for radmtx.py *)

Definition makesky : Radmtx.Makesky := {|
  Radmtx.basis_glow := λ basis, "void glow sky " +:+ basis
|}.

Definition gensun : Radmtx.Gensun := {|
  Radmtx.gen_full := λ n, ("void light sun" +:+ pretty n, "sun" +:+ pretty n);
  Radmtx.gen_cull := λ n _ _, ("void light culled" +:+ pretty n, "culled" +:+ pretty n)
|}.

(** Temporary names are the prefix followed by the number of files. *)
Definition tempfile : Radmtx.Tempfile := {|
  Radmtx.mkstemp_name := λ prefix fs, "/tmp/" +:+ prefix +:+ pretty (base.size fs)
|}.

Definition platform : Radmtx.Platform := {|
  Radmtx.os_posix := true;
  Radmtx.linesep := nl;
  Radmtx.str_num := λ q, pretty (Qnum q)
|}.

(** A simulator that succeeds and leaves the files as they are. *)
Definition quiet_shell : Radmtx.Shell := {|
  Radmtx.shell := λ _ fs, (0%Z, fs)
|}.

(** A receiver whose modifier file was never written, and a world in
    which only the two receiver files exist. *)
Definition sun_b : Radmtx.Receiver.t :=
  Radmtx.Receiver.Make "void light sun" "/tmp/rsrf_b" "r1" (Some "/tmp/gone").

Definition receivers_only_world : Radmtx.world :=
  Radmtx.World
    (<["/tmp/rsrf_a" := "void glow a"]> (<["/tmp/rsrf_b" := "void glow b"]> ∅))
    (<[0 := sky_a]> (<[1 := sky_b]> ∅))
    [].

(** *** More stand-ins for ncp.py *)

(** A simulator whose every invocation fails. *)
Definition failing_matrix : Ncp.Matrix := {|
  Ncp.Sender := list Ncp.Primitive * string;
  Ncp.Receiver := list (list Ncp.Primitive * string * string);
  Ncp.surface_as_sender := λ prims basis left offset, (prims, basis);
  Ncp.surface_as_receiver := λ prims basis left offset source out, [(prims, basis, out)];
  Ncp.receiver_add := λ a b, a ++ b;
  Ncp.rfluxmtx := λ s r env opt fs, (Raise (ValueError "rfluxmtx failed"), fs)
|}.

Definition failing_world : @Ncp.world failing_matrix := Ncp.World ∅ [].

Definition two_windows_model : Ncp.Model :=
  Ncp.MkModel [window_prim "left" "north"; window_prim "right" "north"]
    [window_prim "port" "east"] ["room.rad"] "kf" "kf".

Definition sc4_model : Ncp.Model :=
  Ncp.MkModel [window_prim "window" "north"] [window_prim "port" "east"]
    ["room.rad"] "sc4" "sc4".

Definition sc1_model : Ncp.Model :=
  Ncp.MkModel [window_prim "window" "north"] [window_prim "port" "east"]
    ["room.rad"] "sc1" "sc1".

(** A window whose normal has a unit X component and is not a unit
    vector: no face of a box looks against it. *)
Definition skewed_window : @Ncp.Polygon geom := Face (vec 1 1 0) 1 0 (vec 0 0 0).

(** The search steps of a box around a window facing +X after the turn. *)
Definition east_steps : list (Ncp.Vector * list (@Ncp.Polygon geom) * Q) :=
  [ (vec (999 # 1000) (2 # 100) 0, box [north_window] 0, 1%Q) ].

End Samples.

(** * Properties *)

(** ** Receiver accumulation *)

Section ReceiverAccumulation.
Import Radmtx.

Lemma add_run (w : world) (a b : nat) (ra rb : Receiver.t) :
  heap w !! a = Some ra → heap w !! b = Some rb →
  __add__ a b w =
    (Ok a,
     set_heap (<[a := Receiver.Make (Receiver.receiver ra +:+ Receiver.receiver rb)
                        (Receiver.path ra) (Receiver.basis ra) (Receiver.modifier ra)]>
                 (heap w)) w).
Proof.
  intros Ha Hb.
  unfold __add__, mbind, prog_bind, pbind, deref, setattr_receiver, mret, prog_ret, pret.
  rewrite Ha, Hb, Ha. reflexivity.
Qed.

(** A receiver built by [as_sky] is staged: the file at its path holds
    its description. *)
Lemma as_sky_staged `{Makesky} `{Tempfile} (basis : string) (w : world) :
  startswith basis "r" = true →
  ∃ r o w',
    as_sky basis w = (Ok r, w') ∧
    heap w' !! r = Some o ∧
    files w' !! Receiver.path o = Some (Receiver.receiver o).
Proof.
  intros Hb. unfold as_sky. rewrite Hb. simpl.
  unfold mbind, prog_bind, pbind, mkstemp, write_file, Receiver_init. simpl.
  eexists _, _, _. split; [reflexivity|]. simpl.
  split; [apply lookup_insert_eq|]. simpl. apply lookup_insert_eq.
Qed.

(** C6: for two receivers A and B, the description of A + B is A's
    description followed by B's. *)
Theorem receiver_add_content (w : world) (a b : nat) (ra rb : Receiver.t) :
  heap w !! a = Some ra → heap w !! b = Some rb →
  ∃ sum w' rs,
    __add__ a b w = (Ok sum, w') ∧
    heap w' !! sum = Some rs ∧
    Receiver.receiver rs = Receiver.receiver ra +:+ Receiver.receiver rb.
Proof.
  intros Ha Hb. eexists a, _, _. split; [apply (add_run w a b ra rb Ha Hb)|].
  split; [apply lookup_insert_eq | reflexivity].
Qed.

Lemma receiver_add_content_witness :
  ∃ sum w' rs,
    __add__ 0 1 Samples.staged_world = (Ok sum, w') ∧
    heap w' !! sum = Some rs ∧
    Receiver.receiver rs = "void glow avoid glow b".
Proof.
  apply (receiver_add_content Samples.staged_world 0 1 Samples.sky_a Samples.sky_b);
    reflexivity.
Defined.

(** C10: A + B returns the reference of A itself; A's description is
    now the concatenation and its path, basis and modifier are as
    before; every other object, B included when it is another object,
    is as before; no file is written, so the file staged at A's path
    still holds A's original description. *)
Theorem receiver_add_in_place (w : world) (a b : nat) (ra rb : Receiver.t) :
  heap w !! a = Some ra → heap w !! b = Some rb →
  files w !! Receiver.path ra = Some (Receiver.receiver ra) →
  ∃ w',
    __add__ a b w = (Ok a, w') ∧
    heap w' !! a = Some (Receiver.Make (Receiver.receiver ra +:+ Receiver.receiver rb)
                           (Receiver.path ra) (Receiver.basis ra) (Receiver.modifier ra)) ∧
    (∀ c, c ≠ a → heap w' !! c = heap w !! c) ∧
    (a ≠ b → heap w' !! b = Some rb) ∧
    files w' = files w ∧
    files w' !! Receiver.path ra = Some (Receiver.receiver ra).
Proof.
  intros Ha Hb Hstaged. eexists. split; [apply (add_run w a b ra rb Ha Hb)|].
  simpl. split; [apply lookup_insert_eq|].
  split; [intros c Hc; apply lookup_insert_ne; congruence|].
  split; [intros Hab; rewrite lookup_insert_ne by done; exact Hb|].
  split; [reflexivity | exact Hstaged].
Qed.

Lemma receiver_add_in_place_witness :
  ∃ w',
    __add__ 0 1 Samples.staged_world = (Ok 0, w') ∧
    heap w' !! 0 = Some (Receiver.Make "void glow avoid glow b" "/tmp/rsrf_a" "kf" None) ∧
    (∀ c, c ≠ 0 → heap w' !! c = heap Samples.staged_world !! c) ∧
    (0 ≠ 1 → heap w' !! 1 = Some Samples.sky_b) ∧
    files w' = files Samples.staged_world ∧
    files w' !! "/tmp/rsrf_a" = Some "void glow a".
Proof.
  apply (receiver_add_in_place Samples.staged_world 0 1 Samples.sky_a Samples.sky_b);
    reflexivity.
Defined.
End ReceiverAccumulation.

(** ** Surface staging *)

Section SurfaceStaging.
Import Radmtx.
Context `{RU : Radutil}.

Lemma Forall2_map_self {A} (R : A → A → Prop) (f : A → A) (l : list A) :
  (∀ a, R a (f a)) → Forall2 R l (map f l).
Proof. intros Hf. induction l; simpl; constructor; auto. Qed.

Lemma member_rewritten (mods : list string) (src_mod : string)
    (offset : option Q) (p : prim) :
  let p' := match offset with
            | Some off => offset_member off (set_modifier src_mod (discard_named mods p))
            | None => set_modifier src_mod (discard_named mods p)
            end in
  modifier p' = src_mod ∧
  identifier p' = if decide (identifier p ∈ mods) then "discarded" else identifier p.
Proof.
  unfold discard_named. destruct offset; simpl; destruct (decide _); simpl; auto.
Qed.

(** C7 (amended): the staged text is a header followed by the members
    as rewritten; every member gets the modifier "rflx" + the first
    member's original modifier; a member is renamed "discarded"
    exactly when its identifier is one of the members' original
    modifiers, and keeps its identifier otherwise. *)
Theorem prepare_surface_rewrites (p0 : prim) (rest : list prim) (b : string)
    (left : bool) (offset : option Q) (source out : option string) :
  ∃ header prims',
    prepare_surface (p0 :: rest) (Some b) left offset source out
      = Ok (header +:+ concat_str (map put_primitive prims'), prims') ∧
    Forall2 (λ p p',
               modifier p' = "rflx" +:+ modifier p0 ∧
               identifier p' =
                 if decide (identifier p ∈ map modifier (p0 :: rest))
                 then "discarded" else identifier p)
            (p0 :: rest) prims'.
Proof.
  unfold prepare_surface.
  set (mods := map modifier (p0 :: rest)).
  set (src_mod := "rflx" +:+ modifier p0).
  eexists _, _. split; [reflexivity|].
  destruct offset as [off|].
  - rewrite !map_map.
    apply Forall2_map_self. intros p.
    apply (member_rewritten mods src_mod (Some off) p).
  - rewrite !map_map.
    apply Forall2_map_self. intros p.
    apply (member_rewritten mods src_mod None p).
Qed.
End SurfaceStaging.

(** C7 as stated fails: two members with the same identifier, which is
    not the modifier of any member, both keep it. *)
Lemma twin_panes_not_renamed :
  ¬ (∀ text prims',
       @Radmtx.prepare_surface _ Samples.radutil Samples.twin_panes (Some "kf")
         false None (Some "glow") None = Ok (text, prims') →
       ∀ i j p q p',
         i ≠ j →
         Samples.twin_panes !! i = Some p → Samples.twin_panes !! j = Some q →
         Radmtx.identifier p = Radmtx.identifier q →
         prims' !! i = Some p' →
         Radmtx.identifier p' = "discarded").
Proof.
  intros Hclaim.
  specialize (Hclaim _ _ eq_refl 0 1 _ _ _ ltac:(lia) eq_refl eq_refl eq_refl eq_refl).
  discriminate Hclaim.
Qed.

(** A member named after the material of another is renamed, although
    no two identifiers coincide. *)
Example material_member_discarded :
  ∃ text,
    @Radmtx.prepare_surface _ Samples.radutil Samples.pane_and_material (Some "kf")
      true None None None
      = Ok (text, [Samples.pane "rflxglass" "pane"; Samples.pane "rflxglass" "discarded"]).
Proof. eexists. reflexivity. Qed.

(** ** Resource release *)

Section Release.
Import Radmtx.
Context `{SH : Shell}.


End Release.

(** Before the invocation: a point-grid sender with a ray count other
    than 1 fails the assertion; nothing is run and nothing is removed. *)
Example gen_mtx_assertion_before_invocation :
  @Radmtx.gen_mtx Samples.failing_shell Samples.grid_sender Samples.sky_b
    ["room.rad"] (Some "out.mtx") (Radmtx.OptDict [("c", 2%Z)]) Samples.staged_world
    = (Raise (AssertionError "ray count can't be greater than 1"), Samples.staged_world).
Proof. reflexivity. Qed.


(** ** Python list operations *)

Section ListOps.






End ListOps.

(** ** Port synthesis *)

Section PortSynthesis.
Import Ncp.
Context `{SC : Scene} `{ML : MathLib}.



End PortSynthesis.

Section SamplePorts.
Import Ncp.
#[local] Existing Instance Samples.mathlib.

(** On the sample geometry the first face is smallest at 30 degrees. *)
Example oblique_window_selects_30 :
  ∃ steps,
    result_map (search_step Samples.oblique_window [Samples.louver]) (seq 0 90)
      = Ok steps ∧
    select_deg (map snd steps) = Ok 30.
Proof. eexists. split; vm_compute; reflexivity. Qed.

End SamplePorts.

Section AlignedPorts.
Import Ncp.
Context `{G : Geom} `{ML : MathLib}.

End AlignedPorts.

Section SampleAlignedPorts.
Import Ncp.
#[local] Existing Instances Samples.geom Samples.mathlib.

End SampleAlignedPorts.

(** ** Merging windows *)

Section PySet.
Context {A : Type} (eqb : A → A → bool).

Lemma py_set_acc_sub (xs s : list A) (c : A) :
  c ∈ foldl (py_set_add eqb) s xs → c ∈ s ∨ c ∈ xs.
Proof.
  revert s. induction xs as [|a xs IH]; intros s Hc; simpl in Hc.
  - left. exact Hc.
  - apply IH in Hc as [Hc | Hc]; [|right; right; exact Hc].
    unfold py_set_add in Hc. destruct (existsb _ s); [left; exact Hc|].
    apply elem_of_app in Hc as [Hc | Hc]; [left; exact Hc|].
    right. apply list_elem_of_singleton in Hc as ->. left.
Qed.

Lemma py_set_acc_mono (xs s : list A) (c : A) :
  c ∈ s → c ∈ foldl (py_set_add eqb) s xs.
Proof.
  revert s. induction xs as [|a xs IH]; intros s Hc; simpl; [exact Hc|].
  apply IH. unfold py_set_add. destruct (existsb _ s); [exact Hc|].
  apply elem_of_app. left. exact Hc.
Qed.

Lemma py_set_acc_cover (xs s : list A) (a : A) :
  (∀ u, eqb u u = true) →
  a ∈ xs → ∃ b, b ∈ foldl (py_set_add eqb) s xs ∧ eqb b a = true.
Proof.
  intros Hrefl. revert s. induction xs as [|c xs IH]; intros s Ha.
  - inversion Ha.
  - simpl. apply elem_of_cons in Ha as [Heq | Ha']; [subst c | apply IH; exact Ha'].
    unfold py_set_add at 2. destruct (existsb (λ b, eqb b a) s) eqn:E.
    + apply existsb_exists in E as (b & Hb & Hba).
      exists b. split; [|exact Hba].
      apply py_set_acc_mono, list_elem_of_In, Hb.
    + exists a. split; [|apply Hrefl].
      apply py_set_acc_mono, elem_of_app. right. left.
Qed.

Lemma py_set_acc_distinct (xs s : list A) :
  (1 < length s → ∃ b a, b ∈ s ∧ a ∈ s ∧ eqb b a = false) →
  1 < length (foldl (py_set_add eqb) s xs) →
  ∃ b a, b ∈ foldl (py_set_add eqb) s xs ∧ a ∈ foldl (py_set_add eqb) s xs ∧ eqb b a = false.
Proof.
  revert s. induction xs as [|c xs IH]; intros s Hs; simpl; [exact Hs|].
  apply IH. unfold py_set_add. destruct (existsb (λ b, eqb b c) s) eqn:E; [exact Hs|].
  intros Hlen. rewrite length_app in Hlen. simpl in Hlen.
  destruct s as [|b s]; [simpl in Hlen; lia|].
  exists b, c. split; [left|]. split; [apply elem_of_app; right; left|].
  simpl in E. apply orb_false_iff in E as [E _]. exact E.
Qed.

(** A set of more than one item is a list with two items that are not
    equal. *)
Lemma py_set_distinct (xs : list A) :
  (∀ u, eqb u u = true) →
  (∀ u v, eqb u v = true → eqb v u = true) →
  (∀ u v w, eqb u v = true → eqb v w = true → eqb u w = true) →
  1 < length (py_set eqb xs) ↔ ∃ a b, a ∈ xs ∧ b ∈ xs ∧ eqb a b = false.
Proof.
  intros Hrefl Hsym Htrans. unfold py_set. split.
  - intros Hlen.
    destruct (py_set_acc_distinct xs []) as (b & a & Hb & Ha & Hba);
      [simpl; lia | exact Hlen |].
    exists b, a.
    apply py_set_acc_sub in Hb as [Hb | Hb]; [inversion Hb|].
    apply py_set_acc_sub in Ha as [Ha | Ha]; [inversion Ha|].
    auto.
  - intros (a & b & Ha & Hb & Hab).
    destruct (py_set_acc_cover xs [] a Hrefl Ha) as (sa & Hsa & Hsaa).
    destruct (py_set_acc_cover xs [] b Hrefl Hb) as (sb & Hsb & Hsbb).
    destruct (foldl (py_set_add eqb) [] xs) as [|s [|s' S]]; simpl; [inversion Hsa | | lia].
    apply list_elem_of_singleton in Hsa as ->.
    apply list_elem_of_singleton in Hsb as ->.
    rewrite (Htrans a s b (Hsym _ _ Hsaa) Hsbb) in Hab. discriminate.
Qed.
End PySet.

Section MergeWindows.
Import Ncp.
Context `{SC : Scene}.

(** C3: for a non-empty sequence of window primitives, merge_windows
    fails only with "Windows not co-planar", and it does so exactly
    when two of the window normals are not equal; when all normals
    are equal it returns one primitive, made from the convex hull of
    the pooled vertices in the plane of the first normal, with the
    first window's modifier and identifier; read back, its polygon is
    that hull, so its vertices are among the hull's. *)
Theorem merge_windows_coplanar (p0 : Primitive) (rest : list Primitive) :
  (∀ u, veqb u u = true) →
  (∀ u v, veqb u v = true → veqb v u = true) →
  (∀ u v w, veqb u v = true → veqb v w = true → veqb u w = true) →
  let polygons := map (λ p, parse_polygon (real_arg p)) (p0 :: rest) in
  let hull := convexhull (concat (map vertices polygons))
                (normal (parse_polygon (real_arg p0))) in
  parse_polygon (real_arg (polygon2prim hull (modifier p0) (identifier p0))) = hull →
  (∀ e, merge_windows (p0 :: rest) = Raise e → e = ValueError "Windows not co-planar") ∧
  (merge_windows (p0 :: rest) = Raise (ValueError "Windows not co-planar") ↔
     ∃ n1 n2, n1 ∈ map normal polygons ∧ n2 ∈ map normal polygons ∧
              veqb n1 n2 = false) ∧
  ((∀ n1 n2, n1 ∈ map normal polygons → n2 ∈ map normal polygons →
             veqb n1 n2 = true) →
     ∃ merged,
       merge_windows (p0 :: rest) = Ok merged ∧
       merged = polygon2prim hull (modifier p0) (identifier p0) ∧
       parse_polygon (real_arg merged) = hull ∧
       vertices (parse_polygon (real_arg merged)) ⊆ vertices hull).
Proof.
  intros Hrefl Hsym Htrans polygons hull Hround.
  pose proof (py_set_distinct veqb (map normal polygons) Hrefl Hsym Htrans) as Hset.
  assert (merge_windows (p0 :: rest) =
            if decide (1 < length (py_set veqb (map normal polygons)))
            then Raise (ValueError "Windows not co-planar")
            else Ok (polygon2prim hull (modifier p0) (identifier p0))) as Hrun.
  { unfold merge_windows. fold polygons.
    destruct (decide (1 < length (py_set veqb (map normal polygons)))); reflexivity. }
  rewrite Hrun. clear Hrun.
  destruct (decide (1 < length (py_set veqb (map normal polygons)))) as [Hmany | Hone].
  - split; [intros e [= <-]; reflexivity|]. split.
    + split; [intros _; apply Hset; exact Hmany | reflexivity].
    + intros Hall. exfalso.
      apply Hset in Hmany as (n1 & n2 & H1 & H2 & Hne).
      rewrite (Hall n1 n2 H1 H2) in Hne. discriminate.
  - split; [intros e [=]|]. split.
    + split; [intros [=]|]. intros Hex. exfalso. apply Hone, Hset, Hex.
    + intros _. eexists. split; [reflexivity|]. split; [reflexivity|].
      split; [exact Hround|]. rewrite Hround. reflexivity.
Qed.
End MergeWindows.

Lemma vec_eqb_refl (u : Ncp.Vector) : Samples.vec_eqb u u = true.
Proof. unfold Samples.vec_eqb. rewrite !Qeq_bool_refl. reflexivity. Qed.

Lemma vec_eqb_sym (u v : Ncp.Vector) :
  Samples.vec_eqb u v = true → Samples.vec_eqb v u = true.
Proof.
  unfold Samples.vec_eqb. rewrite !andb_true_iff. intros [[Hx Hy] Hz].
  repeat split; apply Qeq_bool_sym; assumption.
Qed.

Lemma vec_eqb_trans (u v w : Ncp.Vector) :
  Samples.vec_eqb u v = true → Samples.vec_eqb v w = true → Samples.vec_eqb u w = true.
Proof.
  unfold Samples.vec_eqb. rewrite !andb_true_iff.
  intros [[Hx Hy] Hz] [[Hx' Hy'] Hz'].
  repeat split; eapply Qeq_bool_trans; eassumption.
Qed.

Section SampleMerge.
Import Ncp.
#[local] Existing Instances Samples.geom Samples.scene.

Lemma merge_windows_coplanar_witness :
  let polygons := map (λ p, parse_polygon (real_arg p)) Samples.two_north in
  let hull := convexhull (concat (map vertices polygons))
                (normal (parse_polygon "north")) in
  (∀ e, merge_windows Samples.two_north = Raise e →
        e = ValueError "Windows not co-planar") ∧
  (merge_windows Samples.two_north = Raise (ValueError "Windows not co-planar") ↔
     ∃ n1 n2, n1 ∈ map normal polygons ∧ n2 ∈ map normal polygons ∧
              veqb n1 n2 = false) ∧
  ((∀ n1 n2, n1 ∈ map normal polygons → n2 ∈ map normal polygons →
             veqb n1 n2 = true) →
     ∃ merged,
       merge_windows Samples.two_north = Ok merged ∧
       merged = polygon2prim hull "glass" "left" ∧
       parse_polygon (real_arg merged) = hull ∧
       vertices (parse_polygon (real_arg merged)) ⊆ vertices hull).
Proof.
  apply (@merge_windows_coplanar Samples.geom Samples.scene
           (Samples.window_prim "left" "north")
           [Samples.window_prim "right" "north"]
           vec_eqb_refl vec_eqb_sym vec_eqb_trans).
  reflexivity.
Defined.

(** Two coplanar windows merge; a north and an east window do not. *)
Example two_north_merge :
  merge_windows Samples.two_north = Ok (Samples.window_prim "left" "hull").
Proof. reflexivity. Qed.

Example north_east_do_not_merge :
  merge_windows [Samples.window_prim "left" "north"; Samples.window_prim "right" "east"]
    = Raise (ValueError "Windows not co-planar").
Proof. reflexivity. Qed.
End SampleMerge.

(** ** The transfer passes *)

Section Dicts.
Context {V : Type}.

Lemma dict_get_set_same (k : string) (v : V) (d : list (string * V)) :
  dict_get k (dict_set k v d) = Ok v.
Proof.
  induction d as [|[k' v'] d IH]; simpl.
  - destruct (decide (k = k)); [reflexivity | congruence].
  - destruct (decide (k' = k)) as [->|Hne]; simpl.
    + destruct (decide (k = k)); [reflexivity | congruence].
    + destruct (decide (k' = k)); [congruence | exact IH].
Qed.

Lemma dict_get_set_kept (k k' : string) (v' : V) (d : list (string * V)) :
  (∃ v, dict_get k d = Ok v) → ∃ v, dict_get k (dict_set k' v' d) = Ok v.
Proof.
  destruct (decide (k' = k)) as [->|Hne]; [intros _; eexists; apply dict_get_set_same|].
  induction d as [|[k0 v0] d IH]; simpl; intros [v Hv]; [discriminate|].
  destruct (decide (k0 = k')) as [->|Hne0]; simpl.
  - destruct (decide (k' = k)); [congruence|].
    destruct (decide (k' = k)); [congruence | eauto].
  - destruct (decide (k0 = k)); [eauto | apply IH; eauto].
Qed.
End Dicts.

Section Passes.
Import Ncp.
Context `{SC : Scene} `{ML : MathLib} `{MX : Matrix} `{HO : Host}.

Lemma invocations_snoc (es : list event) (e : event) :
  length (List.filter is_invocation (es ++ [e]))
    = length (List.filter is_invocation es) + (if is_invocation e then 1 else 0).
Proof.
  rewrite List.filter_app, length_app. simpl.
  destruct (is_invocation e); reflexivity.
Qed.

Lemma pfor_invocations {A} (items : list A) (body : A → prog world unit) (w : world) :
  (∀ a w, a ∈ items →
     ∃ w', body a w = (Ok (), w') ∧ invocations w' = S (invocations w)) →
  ∃ w', pfor items body w = (Ok (), w') ∧
        invocations w' = invocations w + length items.
Proof.
  revert w. induction items as [|a items IH]; intros w Hbody; simpl.
  - exists w. split; [reflexivity | lia].
  - destruct (Hbody a w) as (w1 & Hw1 & Hn1); [left|].
    destruct (IH w1) as (w2 & Hw2 & Hn2).
    { intros b w' Hb. apply Hbody. right. exact Hb. }
    exists w2. unfold pbind. rewrite Hw1. split; [exact Hw2 | lia].
Qed.

Lemma enumerate_index {A} (xs : list A) (i : nat) (a : A) :
  (i, a) ∈ enumerate xs → i < length xs.
Proof.
  unfold enumerate. intros Hin.
  apply elem_of_zip_l in Hin. apply elem_of_seq in Hin. lia.
Qed.

Lemma length_enumerate {A} (xs : list A) : length (enumerate xs) = length xs.
Proof. unfold enumerate. rewrite length_zip, length_seq. lia. Qed.

(** The staged paths have a "tb" entry for every window, and "tf", "rb"
    and "rf" entries as the flags ask. *)
Lemma stage_paths_keys (td : string) (n : nat) (refl forw : bool) (idx : nat) :
  idx < n →
  let src_dict := (stage_paths td n refl forw).1 in
  (∃ v, dict_get ("tb" +:+ pretty idx) src_dict = Ok v) ∧
  (forw = true → ∃ v, dict_get ("tf" +:+ pretty idx) src_dict = Ok v) ∧
  (refl = true → ∃ v, dict_get ("rb" +:+ pretty idx) src_dict = Ok v) ∧
  (refl = true → forw = true → ∃ v, dict_get ("rf" +:+ pretty idx) src_dict = Ok v).
Proof.
  unfold stage_paths. induction n as [|n IH]; intros Hidx; [lia|].
  rewrite seq_S, foldl_app. simpl foldl at 1.
  set (ds := foldl _ ([], []) (seq 0 n)) in *. cbv zeta.
  destruct (decide (idx = n)) as [->|Hne].
  - destruct forw, refl; simpl;
      repeat split; try discriminate; intros;
      repeat first [ apply dict_get_set_same
                   | eexists; apply dict_get_set_same
                   | apply dict_get_set_kept ].
  - destruct (IH ltac:(lia)) as (Htb & Htf & Hrb & Hrf).
    destruct forw, refl; simpl;
      repeat split; try discriminate; intros;
      repeat apply dict_get_set_kept; auto.
Qed.

(** ncp_compute_back invokes the simulator once per window, with or
    without reflection, when the invocations succeed. *)
Lemma ncp_compute_back_invocations (model : Model) (src_dict : list (string * string))
    (opt : option string) (refl : bool) (w : world) :
  (∀ s r e o fs, (rfluxmtx s r e o fs).1 = Ok ()) →
  (∀ idx, idx < length (windows model) →
     (∃ v, dict_get ("tb" +:+ pretty idx) src_dict = Ok v) ∧
     (refl = true → ∃ v, dict_get ("rb" +:+ pretty idx) src_dict = Ok v)) →
  ∃ w', ncp_compute_back model src_dict opt refl w = (Ok (), w') ∧
        invocations w' = invocations w + length (windows model).
Proof.
  intros Hrun Hkeys. unfold ncp_compute_back.
  rewrite <- (length_enumerate (windows model)).
  apply pfor_invocations. intros [idx wp] w0 Hin.
  apply enumerate_index in Hin.
  destruct (Hkeys idx Hin) as ((tb & Htb) & Hrb).
  unfold mbind, prog_bind, pbind, plift, build_receiver, build_sender, emit, invoke,
    mret, prog_ret, pret. simpl. rewrite Htb.
  destruct refl.
  - destruct (Hrb eq_refl) as (rb & Hrbv). rewrite Hrbv. simpl.
    match goal with |- context [rfluxmtx ?s ?r ?e ?o ?fs] =>
      pose proof (Hrun s r e o fs) as Hok; destruct (rfluxmtx s r e o fs) as [res fs'] end.
    simpl in Hok. subst res. eexists. split; [reflexivity|].
    unfold invocations. simpl. rewrite !invocations_snoc. simpl. lia.
  - simpl.
    match goal with |- context [rfluxmtx ?s ?r ?e ?o ?fs] =>
      pose proof (Hrun s r e o fs) as Hok; destruct (rfluxmtx s r e o fs) as [res fs'] end.
    simpl in Hok. subst res. eexists. split; [reflexivity|].
    unfold invocations. simpl. rewrite !invocations_snoc. simpl. lia.
Qed.

(** ncp_compute_front invokes the simulator once per window as well. *)
Lemma ncp_compute_front_invocations (model : Model) (src_dict : list (string * string))
    (opt : option string) (refl : bool) (w : world) :
  (∀ s r e o fs, (rfluxmtx s r e o fs).1 = Ok ()) →
  (∀ idx, idx < length (windows model) →
     (∃ v, dict_get ("tf" +:+ pretty idx) src_dict = Ok v) ∧
     (refl = true → ∃ v, dict_get ("rf" +:+ pretty idx) src_dict = Ok v)) →
  ∃ w', ncp_compute_front model src_dict opt refl w = (Ok (), w') ∧
        invocations w' = invocations w + length (windows model).
Proof.
  intros Hrun Hkeys. unfold ncp_compute_front.
  unfold mbind at 1, prog_bind at 1, pbind at 1, build_sender at 1.
  unfold mbind at 1, prog_bind at 1, pbind at 1, emit at 1, mret at 1, prog_ret at 1,
    pret at 1.
  cbv beta iota.
  match goal with |- context [pfor ?items ?body ?w1] =>
    destruct (pfor_invocations items body w1) as (w' & Hw' & Hn) end.
  - intros [idx wp] w0 Hin. apply enumerate_index in Hin.
    destruct (Hkeys idx Hin) as ((tf & Htf) & Hrf).
    unfold mbind, prog_bind, pbind, plift, build_receiver, emit, invoke,
      mret, prog_ret, pret. simpl. rewrite Htf.
    destruct refl.
    + destruct (Hrf eq_refl) as (rf & Hrfv). rewrite Hrfv. simpl.
      match goal with |- context [rfluxmtx ?s ?r ?e ?o ?fs] =>
        pose proof (Hrun s r e o fs) as Hok; destruct (rfluxmtx s r e o fs) as [res fs'] end.
      simpl in Hok. subst res. eexists. split; [reflexivity|].
      unfold invocations. simpl. rewrite !invocations_snoc. simpl. lia.
    + simpl.
      match goal with |- context [rfluxmtx ?s ?r ?e ?o ?fs] =>
        pose proof (Hrun s r e o fs) as Hok; destruct (rfluxmtx s r e o fs) as [res fs'] end.
      simpl in Hok. subst res. eexists. split; [reflexivity|].
      unfold invocations. simpl. rewrite !invocations_snoc. simpl. lia.
  - exists w'. split; [exact Hw'|].
    rewrite Hn, length_enumerate. unfold invocations. simpl.
    rewrite invocations_snoc. simpl. lia.
Qed.

(** Lines 324-326 on the staged paths: one invocation per window for the
    backward pass, with or without reflection, and one more per window
    when the forward pass is asked for. *)
Lemma passes_invocations (model : Model) (td : string) (opt : option string)
    (refl forw : bool) (w : world) :
  (∀ s r e o fs, (rfluxmtx s r e o fs).1 = Ok ()) →
  let src_dict := (stage_paths td (length (windows model)) refl forw).1 in
  ∃ w1,
    ncp_compute_back model src_dict opt refl w = (Ok (), w1) ∧
    invocations w1 = invocations w + length (windows model) ∧
    (forw = true →
       ∃ w2, ncp_compute_front model src_dict opt refl w1 = (Ok (), w2) ∧
             invocations w2 = invocations w + 2 * length (windows model)).
Proof.
  intros Hrun src_dict.
  destruct (ncp_compute_back_invocations model src_dict opt refl w Hrun) as (w1 & Hw1 & Hn1).
  { intros idx Hidx.
    destruct (stage_paths_keys td _ refl forw idx Hidx) as (Htb & _ & Hrb & _).
    split; assumption. }
  exists w1. split; [exact Hw1|]. split; [exact Hn1|]. intros ->.
  destruct (ncp_compute_front_invocations model src_dict opt refl w1 Hrun) as (w2 & Hw2 & Hn2).
  { intros idx Hidx.
    destruct (stage_paths_keys td _ refl true idx Hidx) as (_ & Htf & _ & Hrf).
    split; [apply Htf; reflexivity | intros Hr; apply Hrf; [exact Hr | reflexivity]]. }
  exists w2. split; [exact Hw2 | lia].
Qed.
End Passes.

(** ** The pipeline entry point *)

Section EntryPoint.
Import Ncp.
Context `{SC : Scene} `{ML : MathLib} `{MX : Matrix} `{HO : Host}.


End EntryPoint.

Section SamplePipeline.
Import Ncp.
#[local] Existing Instances Samples.geom Samples.scene Samples.mathlib
  Samples.matrix Samples.host.

(** C4, on the code: with the tensor-tree bases "sc6"/"sc6" and wrap
    enabled, lines 294-300 taken alone reject the resolution, but the
    entry point never reaches them: it raises the NameError of
    [ncp_prims], not the ValueError. *)
Theorem sc6_raises_name_error :
  tensor_tree_setup Samples.sc6_model true None
    = Raise (ValueError "Invalid tensor tree resolution.") ∧
  gen_ncp_mtx Samples.sc6_model "out.xml" None false false true false
      Samples.empty_world
    = (Raise (NameError "name 'ncp_prims' is not defined"), Samples.empty_world).
Proof. split; reflexivity. Qed.

(** Lines 294-304 on their own: "sc4" is accepted and the options are
    extended; "kf" selects the Klems wrapping. *)
Example sc4_accepted :
  tensor_tree_setup (MkModel [] [] [] "sc4" "sc4") true (Some "-ab 2")
    = Ok (false, Some "-ab 2 -hd -ff").
Proof. reflexivity. Qed.

Example kf_is_klems :
  tensor_tree_setup Samples.kf_model true None = Ok (true, None).
Proof. reflexivity. Qed.

(** C5, on the code: for a model with one window, reflection and
    forward off, the passes run from line 243 on with [ncp_prims]
    bound would invoke the simulator once; the entry point invokes it
    zero times. *)
Theorem one_window_no_invocation :
  (∃ w', gen_ncp_mtx_from (unpack_primitives "room.rad") (unpack_primitives "room.rad")
           Samples.kf_model "out.mtx" None false false false false Samples.empty_world
           = (Ok (), w') ∧
         invocations w' = 1) ∧
  (∃ e w', gen_ncp_mtx Samples.kf_model "out.mtx" None false false false false
             Samples.empty_world = (Raise e, w') ∧
           invocations w' = 0).
Proof.
  split.
  - eexists. split; [vm_compute; reflexivity | reflexivity].
  - eexists _, _. split; reflexivity.
Qed.
End SamplePipeline.

(** ** More on radmtx.py: staging, release and command lines *)

Section Strings.

Lemma str_app_nil_r (s : string) : s +:+ "" = s.
Proof.
  induction s as [|c s IH]; [reflexivity|].
  change (String c (s +:+ "") = String c s). f_equal. exact IH.
Qed.

Lemma str_app_assoc (a b c : string) : (a +:+ b) +:+ c = a +:+ (b +:+ c).
Proof.
  induction a as [|x a IH]; [reflexivity|].
  change (String x ((a +:+ b) +:+ c) = String x (a +:+ (b +:+ c))). f_equal. exact IH.
Qed.

Lemma has_char_app (c : ascii) (a b : string) :
  has_char c (a +:+ b) = has_char c a || has_char c b.
Proof.
  induction a as [|x a IH]; [reflexivity|].
  change (has_char c (String x (a +:+ b)) = has_char c (String x a) || has_char c b).
  simpl. destruct (decide (c = x)); [reflexivity | exact IH].
Qed.

(** Joining lines and closing the last one is ending every line. *)
Lemma py_join_terminated (sep a : string) (l : list string) :
  py_join sep (a :: l) +:+ sep
    = Radmtx.concat_str (map (λ r, r +:+ sep) (a :: l)).
Proof.
  revert a. induction l as [|b l IH]; intros a.
  - unfold Radmtx.concat_str. simpl. rewrite str_app_nil_r. reflexivity.
  - change (py_join sep (a :: b :: l)) with (a +:+ sep +:+ py_join sep (b :: l)).
    rewrite !str_app_assoc, IH. unfold Radmtx.concat_str. simpl.
    rewrite !str_app_assoc. reflexivity.
Qed.

(** Replacing a character by text that does not hold it leaves no
    occurrence of it. *)
Lemma py_replace_char_gone (c : ascii) (new s : string) :
  has_char c new = false →
  has_char c (py_replace (String c "") new s) = false.
Proof.
  intros Hnew. unfold py_replace.
  destruct (decide (String c "" = "")) as [Heq|_]; [discriminate Heq|].
  induction s as [|d s IH]; [reflexivity|].
  cbn [py_replace_aux String.prefix].
  destruct (ascii_dec c d) as [->|Hne].
  - destruct s; cbn [String.prefix String.length Nat.sub];
      rewrite has_char_app, Hnew; exact IH.
  - cbn [has_char]. destruct (decide (c = d)); [contradiction | exact IH].
Qed.
End Strings.

Section Staging.
Import Radmtx.
Context `{MS : Makesky} `{GS : Gensun} `{TF : Tempfile} `{PF : Platform}.

(** X1: a sky receiver is staged in a new temporary file that holds
    its description, it has no modifier file, and its [remove] deletes
    that file: staging and removing leave the files as they were. *)
Theorem as_sky_remove_restores (basis : string) (w : world) :
  startswith basis "r" = true →
  files w !! mkstemp_name "sky" (files w) = None →
  ∃ r o w1 w2,
    as_sky basis w = (Ok r, w1) ∧
    heap w1 !! r = Some o ∧
    Receiver.receiver o = basis_glow basis ∧
    Receiver.modifier o = None ∧
    files w1 !! Receiver.path o = Some (Receiver.receiver o) ∧
    Receiver_remove o w1 = (Ok (), w2) ∧
    files w2 = files w.
Proof.
  intros Hb Hfresh. unfold as_sky. rewrite Hb. simpl.
  unfold mbind, prog_bind, pbind, mkstemp, write_file, Receiver_init. simpl.
  eexists _, _, _, _. split; [reflexivity|]. simpl.
  split; [apply lookup_insert_eq|]. simpl.
  split; [reflexivity|]. split; [reflexivity|].
  split; [apply lookup_insert_eq|].
  unfold Receiver_remove, mbind, prog_bind, pbind, mret, prog_ret, pret, os_remove.
  simpl. rewrite lookup_insert_eq. split; [reflexivity|]. simpl.
  rewrite !delete_insert_eq. apply delete_id. exact Hfresh.
Qed.

(** X2: a sun receiver is staged in two new temporary files, the
    description and the modifier lines, and its [remove] deletes both:
    staging and removing leave the files as they were. *)
Theorem as_sun_remove_restores (basis d : string) (n : Z)
    (smx_path : option string) (window_paths : option (list string)) (w : world) :
  last_char basis = Ok d →
  py_int d = Ok n →
  files w !! mkstemp_name "sun" (files w) = None →
  <[mkstemp_name "sun" (files w) := ""]> (files w)
    !! mkstemp_name "mod" (<[mkstemp_name "sun" (files w) := ""]> (files w)) = None →
  ∃ r o m w1 w2,
    as_sun basis smx_path window_paths w = (Ok r, w1) ∧
    heap w1 !! r = Some o ∧
    Receiver.modifier o = Some m ∧
    m ≠ Receiver.path o ∧
    files w1 !! Receiver.path o = Some (Receiver.receiver o) ∧
    is_Some (files w1 !! m) ∧
    Receiver_remove o w1 = (Ok (), w2) ∧
    files w2 = files w.
Proof.
  intros Hd Hn Hp Hm. unfold as_sun.
  unfold mbind, prog_bind, pbind, plift, mkstemp, write_file, Receiver_init.
  rewrite Hd, Hn. simpl.
  set (p := mkstemp_name "sun" (files w)) in *.
  set (m := mkstemp_name "mod" (<[p := ""]> (files w))) in *.
  assert (m ≠ p) as Hne.
  { intros Heq. rewrite Heq, lookup_insert_eq in Hm. discriminate. }
  assert (files w !! m = None) as Hm'.
  { rewrite lookup_insert_ne in Hm by congruence. exact Hm. }
  eexists _, _, m, _, _. split; [reflexivity|]. simpl.
  split; [apply lookup_insert_eq|]. simpl.
  split; [reflexivity|]. split; [exact Hne|].
  split; [rewrite lookup_insert_ne by congruence; apply lookup_insert_eq|].
  split; [rewrite lookup_insert_eq; eauto|].
  unfold Receiver_remove, mbind, prog_bind, pbind, os_remove. simpl.
  rewrite lookup_insert_eq. simpl.
  rewrite delete_insert_eq, lookup_delete_ne, lookup_insert_eq by congruence.
  split; [reflexivity|]. simpl.
  apply map_eq. intros k.
  destruct (decide (k = p)) as [->|Hkp]; [rewrite lookup_delete_eq; congruence|].
  rewrite lookup_delete_ne by congruence.
  destruct (decide (k = m)) as [->|Hkm]; [rewrite lookup_delete_eq; congruence|].
  rewrite lookup_delete_ne by congruence.
  rewrite !lookup_insert_ne by congruence. reflexivity.
Qed.

(** X4: a point-grid sender records the number of points as its line
    count and stages its text in a new file; for a non-empty grid the
    text is one line per point, each ended by the line separator; for
    an empty grid the text is a lone line separator while the line
    count is 0. *)
Theorem as_pts_lines (pts_list : list (list Q)) (w : world) :
  ∃ s w',
    as_pts pts_list w = (Ok s, w') ∧
    Sender.form s = "pts" ∧
    Sender.linecnt s = Some (length pts_list) ∧
    files w' !! Sender.path s = Some (Sender.sender s) ∧
    Sender.sender s =
      match pts_list with
      | [] => linesep
      | _ :: _ =>
          concat_str (map (λ l, py_join " " (map str_num l) +:+ linesep) pts_list)
      end.
Proof.
  unfold as_pts, mbind, prog_bind, pbind, mkstemp, write_file, mret, prog_ret, pret.
  simpl. eexists _, _. split; [reflexivity|]. simpl.
  split; [reflexivity|]. split; [reflexivity|].
  split; [apply lookup_insert_eq|].
  destruct pts_list as [|a l]; [reflexivity|].
  change (map (λ l0, py_join " " (map str_num l0)) (a :: l))
    with (py_join " " (map str_num a) :: map (λ l0, py_join " " (map str_num l0)) l).
  rewrite py_join_terminated. f_equal. simpl. f_equal.
  rewrite map_map. reflexivity.
Qed.

(** X5: on a posix host the circle-crop filter holds no double quote,
    whatever the resolution text and the ray count. *)
Theorem crop2circle_posix_no_double_quote (ray_cnt : Z) (xres : string) :
  os_posix = true →
  has_char "034"%char (crop2circle ray_cnt xres) = false.
Proof.
  intros Hposix. unfold crop2circle. rewrite Hposix.
  apply (py_replace_char_gone "034"%char "'"). reflexivity.
Qed.
End Staging.

Section SampleStaging.
Import Radmtx.
#[local] Existing Instances Samples.makesky Samples.gensun Samples.tempfile
  Samples.platform.

Lemma as_sky_remove_restores_witness :
  ∃ r o w1 w2,
    as_sky "r4" Samples.staged_world = (Ok r, w1) ∧
    heap w1 !! r = Some o ∧
    Receiver.receiver o = basis_glow "r4" ∧
    Receiver.modifier o = None ∧
    files w1 !! Receiver.path o = Some (Receiver.receiver o) ∧
    Receiver_remove o w1 = (Ok (), w2) ∧
    files w2 = files Samples.staged_world.
Proof.
  apply (as_sky_remove_restores "r4" Samples.staged_world); reflexivity.
Defined.

Lemma as_sun_remove_restores_witness :
  ∃ r o m w1 w2,
    as_sun "r4" None None Samples.staged_world = (Ok r, w1) ∧
    heap w1 !! r = Some o ∧
    Receiver.modifier o = Some m ∧
    m ≠ Receiver.path o ∧
    files w1 !! Receiver.path o = Some (Receiver.receiver o) ∧
    is_Some (files w1 !! m) ∧
    Receiver_remove o w1 = (Ok (), w2) ∧
    files w2 = files Samples.staged_world.
Proof.
  apply (as_sun_remove_restores "r4" "4" 4 None None Samples.staged_world);
    reflexivity.
Defined.

Lemma crop2circle_posix_no_double_quote_witness :
  has_char "034"%char (crop2circle 4 "1000") = false.
Proof.
  apply (crop2circle_posix_no_double_quote 4 "1000"). reflexivity.
Defined.

(** The staged text of a grid of two points, and of an empty grid. *)
Example two_points_staged :
  ∃ s w',
    as_pts [[0; 0; 1; 0; 0; 1]; [2; 0; 1; 0; 0; 1]]%Q Samples.staged_world = (Ok s, w') ∧
    Sender.sender s = "0 0 1 0 0 1" +:+ nl +:+ "2 0 1 0 0 1" +:+ nl ∧
    Sender.linecnt s = Some 2.
Proof. eexists _, _. split; [reflexivity|]. split; reflexivity. Qed.
End SampleStaging.

Section Invocation.
Import Radmtx.
Context `{SH : Shell} `{TF : Tempfile}.

Lemma opt_get_c_has_c (d : list (string * Z)) (k : Z) :
  opt_get_c (OptDict d) = Ok k → opt_has_c (OptDict d) = true.
Proof.
  unfold opt_get_c, opt_has_c.
  destruct (list_find (λ kv, kv.1 = "c") d) as [[i kv]|] eqn:Hfind; [|discriminate].
  intros _. apply list_find_Some in Hfind as (Hl & Hc & _).
  apply bool_decide_eq_true. rewrite <- Hc.
  apply list_elem_of_fmap. exists kv. split; [reflexivity|].
  apply list_elem_of_lookup. eauto.
Qed.

(** X6: for a point-grid sender, options given as a string that holds
    the letter c raise TypeError, and options given as a dictionary
    whose ray count c is not 1 fail the assertion; either way the
    simulator is not run and no staged file is removed. *)
Theorem gen_mtx_point_grid_options (sender : Sender.t) (receiver : Receiver.t)
    (env : list string) (out : option string) (opt : optv) (w : world) :
  Sender.form sender = "pts" →
  match opt with
  | OptStr s => has_char "c"%char s = true
  | OptDict d => ∃ k, opt_get_c opt = Ok k ∧ k ≠ 1%Z
  end →
  gen_mtx sender receiver env out opt w
    = (Raise match opt with
             | OptStr _ => TypeError "string indices must be integers"
             | OptDict _ => AssertionError "ray count can't be greater than 1"
             end, w).
Proof.
  intros Hform Hopt.
  assert (gen_mtx_cmd sender receiver env out opt =
            Raise match opt with
                  | OptStr _ => TypeError "string indices must be integers"
                  | OptDict _ => AssertionError "ray count can't be greater than 1"
                  end) as Hcmd.
  { unfold gen_mtx_cmd. rewrite Hform.
    destruct (decide ("pts" = "srf")) as [Heq|_]; [discriminate Heq|].
    destruct (decide ("pts" = "pts")) as [_|Hne]; [|congruence].
    destruct opt as [s|d].
    - simpl in Hopt. unfold opt_has_c. rewrite Hopt. reflexivity.
    - destruct Hopt as (k & Hk & Hne).
      rewrite (opt_get_c_has_c d k Hk), Hk.
      unfold mbind, result_bind, rbind.
      destruct (decide (k = 1%Z)); [contradiction | reflexivity]. }
  unfold gen_mtx, mbind, prog_bind, pbind, plift. rewrite Hcmd. reflexivity.
Qed.

(** X7: when the sender's staged file is gone once the simulator has
    returned, gen_mtx raises FileNotFoundError at the first removal and
    removes nothing: the receiver's files are left as the simulator
    left them. *)
Theorem gen_mtx_sender_file_missing (sender : Sender.t) (receiver : Receiver.t)
    (env : list string) (out : option string) (opt : optv) (w : world)
    (cmd : string) (status : Z) (fs : gmap string string) :
  gen_mtx_cmd sender receiver env out opt = Ok cmd →
  shell cmd (files w) = (status, fs) →
  fs !! Sender.path sender = None →
  ∃ w',
    gen_mtx sender receiver env out opt w
      = (Raise (FileNotFoundError (Sender.path sender)), w') ∧
    procs w' = procs w ++ [cmd] ∧
    files w' = fs.
Proof.
  intros Hcmd Hrun Hs.
  unfold gen_mtx, mbind, prog_bind, pbind, plift, sp_run. rewrite Hcmd, Hrun.
  unfold Sender_remove, os_remove. simpl. rewrite Hs.
  eexists. split; [reflexivity|]. split; reflexivity.
Qed.

(** X3: when the receiver's modifier file is gone once the simulator
    has returned, gen_mtx removes the sender's file, raises
    FileNotFoundError for the modifier and leaves the receiver's staged
    file in place. *)
Theorem gen_mtx_modifier_file_missing (sender : Sender.t) (receiver : Receiver.t)
    (env : list string) (out : option string) (opt : optv) (w : world)
    (cmd m : string) (status : Z) (fs : gmap string string) :
  gen_mtx_cmd sender receiver env out opt = Ok cmd →
  shell cmd (files w) = (status, fs) →
  is_Some (fs !! Sender.path sender) →
  Receiver.modifier receiver = Some m →
  fs !! m = None →
  Sender.path sender ≠ Receiver.path receiver →
  ∃ w',
    gen_mtx sender receiver env out opt w = (Raise (FileNotFoundError m), w') ∧
    files w' !! Sender.path sender = None ∧
    files w' !! Receiver.path receiver = fs !! Receiver.path receiver.
Proof.
  intros Hcmd Hrun Hs Hmod Hm Hne.
  unfold gen_mtx, mbind, prog_bind, pbind, plift, sp_run. rewrite Hcmd, Hrun.
  unfold Sender_remove. destruct Hs as [text Hs].
  unfold os_remove at 1. simpl. rewrite Hs.
  unfold Receiver_remove, mbind, prog_bind, pbind. rewrite Hmod.
  unfold os_remove. simpl.
  assert (delete (Sender.path sender) fs !! m = None) as Hm'.
  { destruct (decide (Sender.path sender = m)) as [->|Hsm];
      [apply lookup_delete_eq | rewrite lookup_delete_ne by exact Hsm; exact Hm]. }
  rewrite Hm'. eexists. split; [reflexivity|]. simpl.
  split; [apply lookup_delete_eq | apply lookup_delete_ne; exact Hne].
Qed.

End Invocation.

Section SampleInvocation.
Import Radmtx.
#[local] Existing Instances Samples.failing_shell Samples.tempfile.

Lemma gen_mtx_point_grid_options_witness :
  gen_mtx Samples.grid_sender Samples.sky_b ["room.rad"] (Some "out.mtx")
    (OptDict [("ab", 2%Z); ("c", 4%Z)]) Samples.staged_world
    = (Raise (AssertionError "ray count can't be greater than 1"), Samples.staged_world).
Proof.
  apply (gen_mtx_point_grid_options Samples.grid_sender Samples.sky_b ["room.rad"]
           (Some "out.mtx") (OptDict [("ab", 2%Z); ("c", 4%Z)]) Samples.staged_world).
  - reflexivity.
  - exists 4%Z. split; [reflexivity | discriminate].
Defined.

Lemma gen_mtx_sender_file_missing_witness :
  ∃ w',
    gen_mtx Samples.surface_sender Samples.sky_a ["room.rad"] (Some "out.mtx")
      (OptStr "-ab 1") Samples.receivers_only_world
      = (Raise (FileNotFoundError "/tmp/sndr_srf"), w') ∧
    procs w' = [] ++ ["rfluxmtx -ab 1 /tmp/sndr_srf /tmp/rsrf_a room.rad > out.mtx"] ∧
    files w' = files Samples.receivers_only_world.
Proof.
  apply (gen_mtx_sender_file_missing Samples.surface_sender Samples.sky_a ["room.rad"]
           (Some "out.mtx") (OptStr "-ab 1") Samples.receivers_only_world
           "rfluxmtx -ab 1 /tmp/sndr_srf /tmp/rsrf_a room.rad > out.mtx" 1%Z
           (files Samples.receivers_only_world)); reflexivity.
Defined.

Lemma gen_mtx_modifier_file_missing_witness :
  ∃ w',
    gen_mtx Samples.surface_sender Samples.sun_b ["room.rad"] (Some "out.mtx")
      (OptStr "-ab 1") Samples.staged_world
      = (Raise (FileNotFoundError "/tmp/gone"), w') ∧
    files w' !! "/tmp/sndr_srf" = None ∧
    files w' !! "/tmp/rsrf_b" = files Samples.staged_world !! "/tmp/rsrf_b".
Proof.
  apply (gen_mtx_modifier_file_missing Samples.surface_sender Samples.sun_b ["room.rad"]
           (Some "out.mtx") (OptStr "-ab 1") Samples.staged_world
           "rfluxmtx -ab 1 /tmp/sndr_srf /tmp/rsrf_b room.rad > out.mtx" "/tmp/gone" 1%Z
           (files Samples.staged_world)).
  - reflexivity.
  - reflexivity.
  - eexists; reflexivity.
  - reflexivity.
  - reflexivity.
  - discriminate.
Defined.


(** The two commands of that run. *)
Example sun_mtx_point_grid_commands :
  ∃ w',
    sun_mtx Samples.grid_sender Samples.sky_b ["room.rad"] (Some "sun.mtx")
      (OptStr "-ab 0") Samples.staged_world = (Ok (), w') ∧
    procs w' = [ "oconv ['room.rad'] /tmp/rsrf_b > /tmp/tmp4";
                 "-faf -o sun.mtx -M /tmp/mod_b /tmp/tmp4" ].
Proof. eexists. split; [vm_compute; reflexivity | reflexivity]. Qed.
End SampleInvocation.

(** ** More on port synthesis *)

Section Rounding.

(** Rounding to the nearest integer moves a number by at most a half. *)
Lemma round_half_even_close (t : Q) :
  (Qabs (t - inject_Z (round_half_even t)) <= 1 # 2)%Q.
Proof.
  unfold round_half_even.
  pose proof (Qfloor_le t) as Hlo. pose proof (Qlt_floor t) as Hhi.
  rewrite inject_Z_plus in Hhi. change (inject_Z 1) with 1%Q in Hhi.
  apply Qabs_Qle_condition.
  destruct (Qcompare_spec (t - inject_Z (Qfloor t)) (1 # 2)) as [Heq | Hlt | Hgt].
  - destruct (Z.even (Qfloor t)).
    + split; lra.
    + rewrite inject_Z_plus. change (inject_Z 1) with 1%Q. split; lra.
  - split; lra.
  - rewrite inject_Z_plus. change (inject_Z 1) with 1%Q. split; lra.
Qed.

(** [round(q, 1)] moves a number by at most a twentieth. *)
Lemma round1_close (q : Q) : (Qabs (q - round1 q) <= 1 # 20)%Q.
Proof.
  unfold round1.
  pose proof (round_half_even_close (q * 10)) as H.
  apply Qabs_Qle_condition in H. apply Qabs_Qle_condition.
  set (r := inject_Z (round_half_even (q * 10))) in *.
  unfold Qdiv. change (/ 10)%Q with (1 # 10)%Q.
  split; lra.
Qed.
End Rounding.

Section MorePorts.
Import Ncp.
Context `{SC : Scene} `{ML : MathLib}.

Lemma py_index_Ok {A} (eqb : A → A → bool) (v : A) (xs : list A) (i : nat) :
  py_index eqb v xs = Ok i → ∃ a, xs !! i = Some a ∧ eqb a v = true.
Proof.
  revert i. induction xs as [|c xs IH]; intros i; simpl; [discriminate|].
  destruct (eqb c v) eqn:E.
  - intros [= <-]. eauto.
  - destruct (py_index eqb v xs) as [j|e]; simpl; [|discriminate].
    intros [= <-]. destruct (IH j eq_refl) as (a & Ha & Hv). eauto.
Qed.

(** What a successful run of the steps after the search went through. *)
Lemma rotate_to_position_inv (steps : list (Vector * list Polygon * Q)) (deg : nat)
    (ports : list Polygon) :
  rotate_to_position steps deg = Ok ports →
  ∃ wn bbox a i axis,
    steps !! deg = Some (wn, bbox, a) ∧
    rm_pg !! i = Some axis ∧
    list_Qeqb axis (map round1 (to_list wn)) = true ∧
    i + 2 < length bbox ∧
    ports = map (λ pg, rotate pg zaxis (radians deg * -1)) (delete (i + 2) bbox).
Proof.
  intros Hrun.
  destruct (steps !! deg) as [[[wn bbox] a]|] eqn:Hs.
  - assert (rotate_to_position steps deg =
              rbind (py_index list_Qeqb (map round1 (to_list wn)) rm_pg) (λ i,
                rbind (py_del (i + 2) bbox) (λ kept,
                  Ok (map (λ pg, rotate pg zaxis (radians deg * -1)) kept)))) as Hdef.
    { unfold rotate_to_position, py_nth. rewrite !list_lookup_fmap, Hs. reflexivity. }
    rewrite Hdef in Hrun. clear Hdef.
    destruct (py_index list_Qeqb (map round1 (to_list wn)) rm_pg) as [i|e] eqn:Hi;
      [|discriminate Hrun].
    unfold rbind, py_del in Hrun.
    destruct (decide (i + 2 < length bbox)) as [Hlt|]; [|discriminate Hrun].
    injection Hrun as <-.
    destruct (py_index_Ok _ _ _ _ Hi) as (axis & Haxis & Heq).
    exists wn, bbox, a, i, axis. auto.
  - exfalso. unfold rotate_to_position, py_nth in Hrun.
    rewrite !list_lookup_fmap, Hs in Hrun. discriminate Hrun.
Qed.

(** X9: when the steps after the search succeed, exactly one face of
    the selected box is dropped, at position 2, 3, 4 or 5: the ports
    are the other faces turned back by minus the selected angle, and
    the first two faces of the box are always among them, in place. *)
Theorem rotate_to_position_shape (steps : list (Vector * list Polygon * Q)) (deg : nat)
    (ports : list Polygon) :
  rotate_to_position steps deg = Ok ports →
  ∃ wn bbox a i,
    steps !! deg = Some (wn, bbox, a) ∧
    i < 4 ∧
    ports = map (λ pg, rotate pg zaxis (radians deg * -1)) (delete (i + 2) bbox) ∧
    length bbox = S (length ports) ∧
    ports !! 0 = (λ pg, rotate pg zaxis (radians deg * -1)) <$> bbox !! 0 ∧
    ports !! 1 = (λ pg, rotate pg zaxis (radians deg * -1)) <$> bbox !! 1.
Proof.
  intros Hrun.
  destruct (rotate_to_position_inv _ _ _ Hrun) as (wn & bbox & a & i & axis & Hs & Hax & _ & Hlt & ->).
  exists wn, bbox, a, i. split; [exact Hs|].
  split; [apply lookup_lt_Some in Hax; exact Hax|].
  split; [reflexivity|].
  split.
  - rewrite length_map, length_delete by (apply lookup_lt_is_Some; exact Hlt). lia.
  - rewrite !list_lookup_fmap, !list_lookup_delete_lt by lia. split; reflexivity.
Qed.

(** X10: the steps after the search succeed only if the window normal
    at the selected angle has three components, each within 0.05 of the
    matching component of one of the axes +X, -Y, -X, +Y. *)
Theorem selected_normal_near_axis (steps : list (Vector * list Polygon * Q))
    (deg : nat) (ports : list Polygon) :
  rotate_to_position steps deg = Ok ports →
  ∃ wn bbox a nx ny nz ax ay az,
    steps !! deg = Some (wn, bbox, a) ∧
    to_list wn = [nx; ny; nz] ∧
    [ax; ay; az] ∈ rm_pg ∧
    (Qabs (nx - ax) <= 1 # 20)%Q ∧
    (Qabs (ny - ay) <= 1 # 20)%Q ∧
    (Qabs (nz - az) <= 1 # 20)%Q.
Proof.
  intros Hrun.
  destruct (rotate_to_position_inv _ _ _ Hrun)
    as (wn & bbox & a & i & axis & Hs & Hax & Heq & _ & _).
  assert (∃ ax ay az, axis = [ax; ay; az]) as (ax & ay & az & ->).
  { unfold rm_pg in Hax.
    destruct i as [|[|[|[|i]]]]; simpl in Hax; try discriminate;
      injection Hax as <-; eauto. }
  destruct (to_list wn) as [|nx [|ny [|nz [|? ?]]]] eqn:Hl; simpl in Heq;
    try discriminate;
    try (rewrite !andb_false_r in Heq; discriminate).
  apply andb_true_iff in Heq as [Hx Heq]. apply andb_true_iff in Heq as [Hy Heq].
  apply andb_true_iff in Heq as [Hz _].
  apply Qeq_bool_eq in Hx, Hy, Hz.
  exists wn, bbox, a, nx, ny, nz, ax, ay, az.
  split; [exact Hs|]. split; [exact Hl|].
  split; [apply list_elem_of_lookup; eauto|].
  pose proof (round1_close nx) as Cx. pose proof (round1_close ny) as Cy.
  pose proof (round1_close nz) as Cz.
  apply Qabs_Qle_condition in Cx, Cy, Cz.
  repeat split; apply Qabs_Qle_condition; split; lra.
Qed.

Lemma filter_none {A} (f : A → bool) (l : list A) :
  (∀ a, a ∈ l → f a = false) → List.filter f l = [].
Proof.
  induction l as [|a l IH]; intros Hall; simpl; [reflexivity|].
  rewrite (Hall a) by left. apply IH. intros b Hb. apply Hall. right. exact Hb.
Qed.

(** X11: for an axis-aligned window normal, when no face of the box
    has the reverse of its normal equal to the window normal, the
    routine raises IndexError. *)
Theorem aligned_no_facing_face (wp : Polygon) (np : list Polygon) :
  axis_aligned (normal wp) = true →
  (∀ b, b ∈ getbbox (np ++ [wp]) 0 →
        veqb (vreverse (normal b)) (normal wp) = false) →
  gen_ports_from_window_ncp wp np = Raise (IndexError "list index out of range").
Proof.
  intros Hwn Hnone. unfold gen_ports_from_window_ncp. rewrite Hwn.
  unfold aligned_ports. rewrite filter_none by exact Hnone. reflexivity.
Qed.

Lemma filter_filter {A} (f : A → bool) (l : list A) :
  List.filter f (List.filter f l) = List.filter f l.
Proof.
  induction l as [|a l IH]; simpl; [reflexivity|].
  destruct (f a) eqn:E; simpl; [rewrite E, IH; reflexivity | exact IH].
Qed.

(** X12: shading primitives that are not polygons play no part: the
    ports computed from a list of shading primitives are those computed
    from its polygons alone. *)
Theorem gen_port_prims_ignores_non_polygons (wprim nprim : list Primitive) :
  gen_port_prims_from_window_ncp wprim nprim
    = gen_port_prims_from_window_ncp wprim
        (List.filter (λ p, bool_decide (ptype p = "polygon")) nprim).
Proof.
  unfold gen_port_prims_from_window_ncp. rewrite filter_filter. reflexivity.
Qed.

(** X13: with more than one window primitive, two window normals that
    are not equal make the port generation fail with "Windows not
    co-planar", whatever the shading primitives. *)
Theorem gen_port_prims_rejects_non_coplanar (wprim nprim : list Primitive)
    (n1 n2 : Vector) :
  (∀ u, veqb u u = true) →
  (∀ u v, veqb u v = true → veqb v u = true) →
  (∀ u v w, veqb u v = true → veqb v w = true → veqb u w = true) →
  n1 ∈ map (λ p, normal (parse_polygon (real_arg p))) wprim →
  n2 ∈ map (λ p, normal (parse_polygon (real_arg p))) wprim →
  veqb n1 n2 = false →
  gen_port_prims_from_window_ncp wprim nprim
    = Raise (ValueError "Windows not co-planar").
Proof.
  intros Hrefl Hsym Htrans H1 H2 Hne.
  assert (1 < length (py_set veqb (map normal (map (λ p, parse_polygon (real_arg p)) wprim))))
    as Hmany.
  { apply (py_set_distinct veqb _ Hrefl Hsym Htrans).
    exists n1, n2. rewrite map_map. auto. }
  assert (1 < length wprim) as Hlen.
  { destruct wprim as [|p [|q wprim]]; simpl; [inversion H1 | | lia].
    exfalso. apply list_elem_of_singleton in H1, H2. subst.
    rewrite Hrefl in Hne. discriminate. }
  unfold gen_port_prims_from_window_ncp.
  destruct (decide (1 < length wprim)) as [_|Hno]; [|contradiction].
  unfold merge_windows.
  destruct (decide (1 < length (py_set veqb
              (map normal (map (λ p, parse_polygon (real_arg p)) wprim)))))
    as [_|Hno]; [reflexivity | contradiction].
Qed.
End MorePorts.

Section SampleMorePorts.
Import Ncp.
#[local] Existing Instances Samples.geom Samples.scene Samples.mathlib.

Lemma rotate_to_position_shape_witness :
  ∃ ports,
    rotate_to_position Samples.east_steps 0 = Ok ports ∧
    ∃ wn bbox a i,
      Samples.east_steps !! 0 = Some (wn, bbox, a) ∧
      i < 4 ∧
      ports = map (λ pg, rotate pg zaxis (radians 0 * -1)) (delete (i + 2) bbox) ∧
      length bbox = S (length ports) ∧
      ports !! 0 = (λ pg, rotate pg zaxis (radians 0 * -1)) <$> bbox !! 0 ∧
      ports !! 1 = (λ pg, rotate pg zaxis (radians 0 * -1)) <$> bbox !! 1.
Proof.
  eexists. split; [reflexivity|].
  apply (rotate_to_position_shape Samples.east_steps 0). reflexivity.
Defined.

Lemma selected_normal_near_axis_witness :
  ∃ ports,
    rotate_to_position Samples.east_steps 0 = Ok ports ∧
    ∃ wn bbox a nx ny nz ax ay az,
      Samples.east_steps !! 0 = Some (wn, bbox, a) ∧
      to_list wn = [nx; ny; nz] ∧
      [ax; ay; az] ∈ rm_pg ∧
      (Qabs (nx - ax) <= 1 # 20)%Q ∧
      (Qabs (ny - ay) <= 1 # 20)%Q ∧
      (Qabs (nz - az) <= 1 # 20)%Q.
Proof.
  eexists. split; [reflexivity|].
  apply (selected_normal_near_axis Samples.east_steps 0 _ eq_refl).
Defined.

Lemma aligned_no_facing_face_witness :
  gen_ports_from_window_ncp Samples.skewed_window [Samples.louver]
    = Raise (IndexError "list index out of range").
Proof.
  apply (aligned_no_facing_face Samples.skewed_window [Samples.louver]).
  - reflexivity.
  - intros b Hb. cbv [getbbox Samples.geom Samples.box] in Hb.
    repeat (apply elem_of_cons in Hb as [-> | Hb]; [reflexivity|]).
    inversion Hb.
Defined.

Lemma gen_port_prims_rejects_non_coplanar_witness :
  gen_port_prims_from_window_ncp
    [Samples.window_prim "left" "north"; Samples.window_prim "right" "east"]
    [Samples.window_prim "shade" "oblique"]
    = Raise (ValueError "Windows not co-planar").
Proof.
  apply (@gen_port_prims_rejects_non_coplanar Samples.geom Samples.scene Samples.mathlib
           [Samples.window_prim "left" "north"; Samples.window_prim "right" "east"]
           [Samples.window_prim "shade" "oblique"]
           (Samples.vec 0 1 0) (Samples.vec 1 0 0)
           vec_eqb_refl vec_eqb_sym vec_eqb_trans).
  - left.
  - right. left.
  - reflexivity.
Defined.
End SampleMorePorts.

(** ** More on the transfer passes and the wrapping stage *)

Section StagedPaths.
Import Ncp.
Context `{SC : Scene} `{ML : MathLib} `{MX : Matrix} `{HO : Host}.

Lemma dict_set_Forall2 {V} (R : string * V → string * V → Prop)
    (k : string) (v1 v2 : V) (d1 d2 : list (string * V)) :
  (∀ a b, R a b → a.1 = b.1) →
  R (k, v1) (k, v2) →
  Forall2 R d1 d2 → Forall2 R (dict_set k v1 d1) (dict_set k v2 d2).
Proof.
  intros Hkey Hnew. induction 1 as [|[k1 x1] [k2 x2] d1 d2 Hab Hrest IH]; simpl.
  - constructor; [exact Hnew | constructor].
  - pose proof (Hkey _ _ Hab) as Hk. simpl in Hk. subst k2.
    destruct (decide (k1 = k)); constructor; assumption.
Qed.

(** X14: the two staged dictionaries have the same keys in the same
    order; under a key the first holds the path key.dat and the second
    the path keyp.dat, both in the temporary directory. *)
Theorem stage_paths_same_keys (td : string) (n : nat) (refl forw : bool) :
  Forall2 (λ s f, s.1 = f.1 ∧
                  s.2 = path_join td (s.1 +:+ ".dat") ∧
                  f.2 = path_join td (s.1 +:+ "p.dat"))
          (stage_paths td n refl forw).1 (stage_paths td n refl forw).2.
Proof.
  unfold stage_paths. induction n as [|n IH]; [constructor|].
  rewrite seq_S, foldl_app. simpl foldl at 1 3.
  set (ds := foldl _ ([], []) (seq 0 n)) in *. cbv zeta.
  destruct forw, refl; simpl;
    repeat (apply dict_set_Forall2; [intros a b Hab; apply Hab | simpl; auto |]);
    exact IH.
Qed.

Lemma enumerate_cons {A} (a : A) (l : list A) :
  enumerate (a :: l) = (0, a) :: zip (seq 1 (length l)) l.
Proof. reflexivity. Qed.

(** X15: with at least one window and no "tb0" entry in the staged
    paths, the backward pass raises the KeyError at once: no endpoint
    is built, the simulator is not invoked, no file is touched. *)
Theorem ncp_compute_back_missing_key (model : Model) (src_dict : list (string * string))
    (opt : option string) (refl : bool) (w : world) (e : exn) :
  windows model ≠ [] →
  dict_get "tb0" src_dict = Raise e →
  ncp_compute_back model src_dict opt refl w = (Raise e, w).
Proof.
  intros Hwin Hkey. unfold ncp_compute_back.
  destruct (windows model) as [|w0 ws]; [congruence|].
  rewrite enumerate_cons. cbn [pfor].
  unfold pbind at 1. unfold mbind at 1, prog_bind at 1, pbind at 1, plift at 1.
  change ("tb" +:+ pretty (0, w0).1) with "tb0". rewrite Hkey. reflexivity.
Qed.

(** X16: when the first invocation fails, the backward pass stops
    there: the error is raised and exactly one invocation has been
    issued, however many windows the model has. *)
Theorem ncp_compute_back_stops_at_failure (model : Model)
    (src_dict : list (string * string)) (opt : option string) (refl : bool)
    (w : world) (err : exn) :
  windows model ≠ [] →
  (∀ s r e o fs, (rfluxmtx s r e o fs).1 = Raise err) →
  (∃ tb, dict_get "tb0" src_dict = Ok tb) →
  (refl = true → ∃ rb, dict_get "rb0" src_dict = Ok rb) →
  ∃ w',
    ncp_compute_back model src_dict opt refl w = (Raise err, w') ∧
    invocations w' = S (invocations w).
Proof.
  intros Hwin Hfail [tb Htb] Hrb. unfold ncp_compute_back.
  destruct (windows model) as [|w0 ws]; [congruence|].
  rewrite enumerate_cons. cbn [pfor].
  unfold pbind at 1.
  unfold mbind, prog_bind, pbind, plift, build_receiver, build_sender, emit, invoke,
    mret, prog_ret, pret.
  change ("tb" +:+ pretty (0, w0).1) with "tb0".
  change ("rb" +:+ pretty (0, w0).1) with "rb0".
  rewrite Htb. destruct refl.
  - destruct (Hrb eq_refl) as [rb Hrb']. rewrite Hrb'. simpl.
    match goal with |- context [rfluxmtx ?s ?r ?e ?o ?fs] =>
      pose proof (Hfail s r e o fs) as Hbad; destruct (rfluxmtx s r e o fs) as [res fs'] end.
    simpl in Hbad. subst res. eexists. split; [reflexivity|].
    unfold invocations. simpl. rewrite !invocations_snoc. simpl. lia.
  - simpl.
    match goal with |- context [rfluxmtx ?s ?r ?e ?o ?fs] =>
      pose proof (Hfail s r e o fs) as Hbad; destruct (rfluxmtx s r e o fs) as [res fs'] end.
    simpl in Hbad. subst res. eexists. split; [reflexivity|].
    unfold invocations. simpl. rewrite !invocations_snoc. simpl. lia.
Qed.
End StagedPaths.

Section WrapStage.
Import Ncp.
Context `{SC : Scene} `{ML : MathLib} `{MX : Matrix} `{HO : Host}.

(** A program is quiet when it never invokes the simulator, however
    it ends; it is stuck when it ends in an exception from every
    world. *)
#[local] Abbreviation quiet c :=
  (∀ w r w', c w = (r, w') → invocations w' = invocations w).
#[local] Abbreviation stuck c :=
  (∀ w, ∃ e w', c w = (Raise e, w')).

Lemma quiet_ret {A} (a : A) : quiet (pret (W := world) a).
Proof. unfold pret. intros w r w' [= _ <-]. reflexivity. Qed.

Lemma quiet_raise {A} (e : exn) : quiet (praise (W := world) (A := A) e).
Proof. unfold praise. intros w r w' [= _ <-]. reflexivity. Qed.

Lemma quiet_plift {A} (x : result A) : quiet (plift (W := world) x).
Proof. unfold plift. intros w r w' [= _ <-]. reflexivity. Qed.

Lemma quiet_bind {A B} (c : prog world A) (k : A → prog world B) :
  quiet c → (∀ a, quiet (k a)) → quiet (pbind c k).
Proof.
  intros Hc Hk w r w'. unfold pbind.
  destruct (c w) as [[a|e] w1] eqn:Hcw; intros Hrun.
  - rewrite (Hk a _ _ _ Hrun). exact (Hc _ _ _ Hcw).
  - injection Hrun as _ <-. exact (Hc _ _ _ Hcw).
Qed.

Lemma quiet_pfor {A} (items : list A) (body : A → prog world unit) :
  (∀ a, quiet (body a)) → quiet (pfor items body).
Proof.
  intros Hbody. induction items as [|a items IH]; simpl.
  - apply quiet_ret.
  - apply quiet_bind; [apply Hbody | intros _; exact IH].
Qed.

Lemma quiet_write_file (path text : string) : quiet (write_file path text).
Proof. unfold write_file. intros w r w' [= _ <-]. reflexivity. Qed.

Lemma quiet_read_file (path : string) : quiet (read_file path).
Proof.
  unfold read_file. intros w r w'.
  destruct (files w !! path); intros [= _ <-]; reflexivity.
Qed.

Lemma quiet_rename (src dst : string) : quiet (rename src dst).
Proof.
  unfold rename. intros w r w'.
  destruct (files w !! src); intros [= _ <-]; reflexivity.
Qed.

Lemma quiet_spawn (cmd : list arg) (input : string) : quiet (spawn cmd input).
Proof.
  unfold spawn. destruct (mapM arg_text cmd) as [argv|].
  - intros w r w' [= _ <-]. unfold invocations. simpl.
    rewrite invocations_snoc. simpl. lia.
  - apply quiet_raise.
Qed.

Lemma quiet_spawn_to (path : string) (cmd : list arg) (input : string) :
  quiet (spawn_to path cmd input).
Proof.
  unfold spawn_to, mbind, prog_bind.
  apply quiet_bind; [apply quiet_write_file | intros _].
  apply quiet_bind; [apply quiet_spawn | intros out; apply quiet_write_file].
Qed.

Ltac quiet_step :=
  first
    [ apply quiet_spawn_to | apply quiet_spawn | apply quiet_write_file
    | apply quiet_read_file | apply quiet_rename | apply quiet_plift
    | apply quiet_raise | apply quiet_ret
    | apply quiet_bind; [|intros ?]
    | apply quiet_pfor; intros ? ].

Lemma quiet_rttree_reduce (ttrank ttlog2 pctcull : Z) (refl : bool)
    (src dest spec : string) :
  quiet (rttree_reduce ttrank ttlog2 pctcull refl src dest spec).
Proof.
  unfold rttree_reduce, mbind, prog_bind. cbv zeta.
  destruct posix, (decide (0 ≤ pctcull)%Z); repeat quiet_step.
Qed.

Lemma quiet_klems_wrap (model : Model) (src_dict fwrap_dict : list (string * string))
    (out : string) :
  quiet (klems_wrap model src_dict fwrap_dict out).
Proof.
  unfold klems_wrap, mbind, prog_bind. cbv zeta. repeat quiet_step.
Qed.

Lemma quiet_tt_wrap (model : Model) (src_dict fwrap_dict : list (string * string))
    (out : string) (refl : bool) :
  quiet (tt_wrap model src_dict fwrap_dict out refl).
Proof.
  unfold tt_wrap, mbind, prog_bind. cbv zeta.
  apply quiet_bind; [apply quiet_plift | intros sc].
  apply quiet_bind; [apply quiet_plift | intros ttlog2].
  apply quiet_bind; [apply quiet_plift | intros [|]]; [apply quiet_raise|].
  apply quiet_pfor. intros iw.
  apply quiet_bind; [apply quiet_plift | intros sub_dict].
  apply quiet_bind.
  - apply quiet_pfor. intros key.
    apply quiet_bind; [apply quiet_plift | intros src].
    apply quiet_bind; [apply quiet_plift | intros dest].
    apply quiet_rttree_reduce.
  - intros _. apply quiet_bind; [apply quiet_plift | intros cmd].
    apply quiet_spawn_to.
Qed.

Lemma stuck_raise {A} (e : exn) : stuck (praise (W := world) (A := A) e).
Proof. intros w. exists e, w. reflexivity. Qed.

Lemma stuck_bind_l {A B} (c : prog world A) (k : A → prog world B) :
  stuck c → stuck (pbind c k).
Proof.
  intros Hc w. destruct (Hc w) as (e & w' & Hcw).
  exists e, w'. unfold pbind. rewrite Hcw. reflexivity.
Qed.

Lemma stuck_bind_r {A B} (c : prog world A) (k : A → prog world B) :
  (∀ a, stuck (k a)) → stuck (pbind c k).
Proof.
  intros Hk w. unfold pbind. destruct (c w) as [[a|e] w1].
  - apply Hk.
  - exists e, w1. reflexivity.
Qed.

Lemma stuck_pfor_cons {A} (a : A) (items : list A) (body : A → prog world unit) :
  stuck (body a) → stuck (pfor (a :: items) body).
Proof. intros Ha. simpl. apply stuck_bind_l. exact Ha. Qed.

Lemma klems_wrap_stuck (model : Model) (src_dict fwrap_dict : list (string * string))
    (out : string) :
  stuck (klems_wrap model src_dict fwrap_dict out).
Proof.
  unfold klems_wrap, mbind, prog_bind.
  apply stuck_bind_r. intros _. apply stuck_raise.
Qed.

(** X17: klems_wrap never returns normally: whatever the staged
    dictionaries and the files, it ends in an exception (at the latest
    the AttributeError of model.window), and it has not invoked the
    simulator. *)
Theorem klems_wrap_never_returns (model : Model)
    (src_dict fwrap_dict : list (string * string)) (out : string) (w : world) :
  ∃ e w',
    klems_wrap model src_dict fwrap_dict out w = (Raise e, w') ∧
    invocations w' = invocations w.
Proof.
  destruct (klems_wrap_stuck model src_dict fwrap_dict out w) as (e & w' & Hrun).
  exists e, w'. split; [exact Hrun|].
  exact (quiet_klems_wrap model src_dict fwrap_dict out _ _ _ Hrun).
Qed.

Lemma rttree_reduce_visible_run (ttrank ttlog2 pctcull : Z) (refl : bool)
    (src dest : string) (w : world) :
  (0 ≤ pctcull)%Z →
  ∃ msg w',
    rttree_reduce ttrank ttlog2 pctcull refl src dest "Visible" w
      = (Raise (TypeError msg), w') ∧
    files w' = <[dest := ""]> (files w).
Proof.
  intros Hcull. unfold rttree_reduce. cbv zeta.
  rewrite !(decide_True (P := "Visible" = "Visible")) by reflexivity.
  unfold mbind, prog_bind, pbind, plift, spawn_to, spawn, write_file, praise.
  destruct posix; cbn; repeat case_decide; try lia; cbn;
    unfold mbind, prog_bind, pbind; cbn;
    eexists _, _; (split; [reflexivity|]); reflexivity.
Qed.

(** X18: for the visible spectrum and a culling percentage that is not
    negative, rttree_reduce always ends in a TypeError, because the
    command of the reduction holds integers; at that point the
    destination file has been opened for writing and is empty, and the
    simulator has not been invoked. *)
Theorem rttree_reduce_visible_type_error (ttrank ttlog2 pctcull : Z) (refl : bool)
    (src dest : string) (w : world) :
  (0 ≤ pctcull)%Z →
  ∃ msg w',
    rttree_reduce ttrank ttlog2 pctcull refl src dest "Visible" w
      = (Raise (TypeError msg), w') ∧
    files w' !! dest = Some "" ∧
    (∀ p, p ≠ dest → files w' !! p = files w !! p) ∧
    invocations w' = invocations w.
Proof.
  intros Hcull.
  destruct (rttree_reduce_visible_run ttrank ttlog2 pctcull refl src dest w Hcull)
    as (msg & w' & Hrun & Hfiles).
  exists msg, w'. split; [exact Hrun|]. rewrite Hfiles.
  split; [apply lookup_insert_eq|].
  split; [intros p Hp; apply lookup_insert_ne; congruence|].
  exact (quiet_rttree_reduce _ _ _ _ _ _ _ _ _ _ Hrun).
Qed.
Lemma dict_get_Ok_in {V} (k : string) (d : list (string * V)) (v : V) :
  dict_get k d = Ok v → In k (map fst d).
Proof.
  induction d as [|[k' v'] d IH]; simpl; [discriminate|].
  destruct (decide (k' = k)) as [->|_]; [left; reflexivity | right; auto].
Qed.

Lemma tt_wrap_stuck (model : Model) (src_dict fwrap_dict : list (string * string))
    (out : string) (refl : bool) (key : string) :
  windows model ≠ [] →
  In key (map fst src_dict) → endswith key "0" = true →
  stuck (tt_wrap model src_dict fwrap_dict out refl).
Proof.
  intros Hwin Hkey Hend. unfold tt_wrap, mbind, prog_bind.
  apply stuck_bind_r; intros sc.
  apply stuck_bind_r; intros ttlog2.
  apply stuck_bind_r; intros [|]; [apply stuck_raise|].
  destruct (windows model) as [|w0 ws]; [congruence|].
  rewrite enumerate_cons. apply stuck_pfor_cons. cbv zeta.
  apply stuck_bind_r; intros sub_dict.
  apply stuck_bind_l.
  change (pretty (0, w0).1) with "0".
  assert (Hin : In key (List.filter (λ k, endswith k "0") (map fst src_dict))).
  { apply filter_In. split; assumption. }
  destruct (List.filter (λ k, endswith k "0") (map fst src_dict)) as [|k0 ks];
    [destruct Hin|].
  apply stuck_pfor_cons.
  apply stuck_bind_r; intros src.
  apply stuck_bind_r; intros dest.
  intros w.
  destruct (rttree_reduce_visible_run 4 (py_trunc ttlog2) 90 refl src dest w)
    as (msg & w' & Hrun & _); [lia|].
  exists (TypeError msg), w'. exact Hrun.
Qed.

Lemma quiet_wrap_stage (model : Model) (src_dict fwrap_dict : list (string * string))
    (out : string) (refl wrap klems : bool) :
  quiet (if wrap then
           if klems then klems_wrap model src_dict fwrap_dict out
           else tt_wrap model src_dict fwrap_dict out refl
         else
           pfor src_dict (λ kf,
             let out_name := path_stem out +:+ "_" +:+ kf.1 +:+ ".mtx" in
             rename kf.2 (path_join (path_parent out) out_name))).
Proof.
  destruct wrap; [destruct klems|].
  - apply quiet_klems_wrap.
  - apply quiet_tt_wrap.
  - apply quiet_pfor. intros kf. apply quiet_rename.
Qed.

(** X19: when the invocations of the simulator succeed, the passes
    inside the temporary directory invoke it once per window, and twice
    per window when the forward pass is asked for; the wrapping or
    renaming stage that follows adds no invocation, however it ends. *)
Theorem run_passes_invocations (model : Model) (out : string) (opt : option string)
    (refl forw wrap klems : bool) (td : string) (w : world) :
  (∀ s r e o fs, (rfluxmtx s r e o fs).1 = Ok ()) →
  ∃ r w',
    run_passes model out opt refl forw wrap klems td w = (r, w') ∧
    invocations w' =
      invocations w + (if forw then 2 else 1) * length (windows model).
Proof.
  intros Hrun. unfold run_passes. cbv zeta.
  destruct (passes_invocations model td opt refl forw w Hrun) as (w1 & Hb & Hn1 & Hf).
  cbv zeta in Hb, Hf.
  unfold mbind, prog_bind. unfold pbind at 1. rewrite Hb.
  pose proof (quiet_wrap_stage model
    (stage_paths td (length (windows model)) refl forw).1
    (stage_paths td (length (windows model)) refl forw).2 out refl wrap klems) as Hq.
  destruct forw.
  - destruct (Hf eq_refl) as (w2 & Hf2 & Hn2).
    unfold pbind at 1. rewrite Hf2.
    match goal with |- ∃ r w', ?c w2 = _ ∧ _ => destruct (c w2) as [r w'] eqn:Hst end.
    exists r, w'. split; [reflexivity|].
    rewrite (Hq _ _ _ Hst). lia.
  - unfold pbind at 1, mret, prog_ret, pret.
    match goal with |- ∃ r w', ?c w1 = _ ∧ _ => destruct (c w1) as [r w'] eqn:Hst end.
    exists r, w'. split; [reflexivity|].
    rewrite (Hq _ _ _ Hst). lia.
Qed.

(** X20: with wrapping asked for and at least one window, the passes
    never end normally: the Klems wrapping reads an attribute the
    model does not have, and the tensor tree wrapping hands integers
    to the command of the reduction. *)
Theorem run_passes_wrap_never_returns (model : Model) (out : string)
    (opt : option string) (refl forw klems : bool) (td : string) (w : world) :
  windows model ≠ [] →
  ∃ e w', run_passes model out opt refl forw true klems td w = (Raise e, w').
Proof.
  intros Hwin. revert w. unfold run_passes, mbind, prog_bind. cbv zeta.
  apply stuck_bind_r; intros _. apply stuck_bind_r; intros _.
  destruct klems; [apply klems_wrap_stuck|].
  destruct (stage_paths_keys td (length (windows model)) refl forw 0) as ([v Hv] & _).
  { destruct (windows model); [congruence | simpl; lia]. }
  apply (tt_wrap_stuck _ _ _ _ _ "tb0"); [exact Hwin | | reflexivity].
  exact (dict_get_Ok_in _ _ _ Hv).
Qed.
End WrapStage.

(** ** The tensor tree resolution and the material of the shade *)

Section Resolution.
Import Ncp.
Context `{SC : Scene} `{ML : MathLib} `{MX : Matrix} `{HO : Host}.

Lemma Qfloor_between (q : Q) (n : Z) :
  (inject_Z n <= q)%Q → (q < inject_Z (n + 1))%Q → Qfloor q = n.
Proof.
  intros Hlo Hhi.
  pose proof (Qfloor_le q) as Hle. pose proof (Qlt_floor q) as Hlt.
  assert (Qfloor q < n + 1)%Z.
  { rewrite Zlt_Qlt. eapply Qle_lt_trans; [exact Hle | exact Hhi]. }
  assert (n < Qfloor q + 1)%Z.
  { rewrite Zlt_Qlt. eapply Qle_lt_trans; [exact Hlo | exact Hlt]. }
  lia.
Qed.

Lemma py_trunc_small (q : Q) : (0 <= q)%Q → (q < 1)%Q → py_trunc q = 0%Z.
Proof.
  intros Hlo Hhi. unfold py_trunc.
  rewrite (proj2 (Qle_bool_iff 0 q) Hlo).
  apply Qfloor_between; assumption.
Qed.

Lemma fmod_nonzero_trunc (q : Q) :
  (1 <= q)%Q →
  fmod_nonzero q (py_trunc q) = Ok (negb (Qeq_bool q (inject_Z (Qfloor q)))).
Proof.
  intros Hq. unfold py_trunc.
  rewrite (proj2 (Qle_bool_iff 0 q)) by lra.
  pose proof (Qfloor_le q) as Hle. pose proof (Qlt_floor q) as Hlt.
  assert (Hn : (1 <= Qfloor q)%Z).
  { change 1%Z with (Qfloor 1). apply Qfloor_resp_le. exact Hq. }
  set (n := Qfloor q) in *.
  assert (HnQ : (1 <= inject_Z n)%Q).
  { change 1%Q with (inject_Z 1). rewrite <- Zle_Qle. exact Hn. }
  rewrite inject_Z_plus in Hlt. change (inject_Z 1) with 1%Q in Hlt.
  unfold fmod_nonzero. rewrite decide_False by lia.
  assert (Hfl : Qfloor (q / inject_Z n) = 1%Z).
  { apply Qfloor_between.
    - change (inject_Z 1) with 1%Q. apply Qle_shift_div_l; lra.
    - change (inject_Z (1 + 1)) with 2%Q. apply Qlt_shift_div_r; lra. }
  rewrite Hfl. change (inject_Z 1) with 1%Q.
  f_equal. f_equal.
  destruct (Qeq_bool q (inject_Z n)) eqn:Heq.
  - apply Qeq_bool_iff in Heq. apply Qeq_bool_iff. lra.
  - apply Qeq_bool_neq in Heq.
    destruct (Qeq_bool (q - inject_Z n * 1) 0) eqn:Heq'; [|reflexivity].
    apply Qeq_bool_iff in Heq'. exfalso. apply Heq. lra.
Qed.

(** X21: with wrapping asked for and both bases Shirley-Chiu, a
    resolution whose base-2 logarithm is at least 1 is accepted exactly
    when that logarithm is a whole number; the tensor tree wrapping is
    then selected and " -hd -ff" is appended to the options.  Otherwise
    the ValueError of the resolution is raised. *)
Theorem tensor_tree_setup_whole_log (model : Model) (opt : option string) (sc : Z) :
  startswith (rbasis model) "sc" = true →
  startswith (sbasis model) "sc" = true →
  py_int (str_from 2 (rbasis model)) = Ok sc →
  (0 < sc)%Z →
  (1 <= log sc 2)%Q →
  tensor_tree_setup model true opt =
    if Qeq_bool (log sc 2) (inject_Z (Qfloor (log sc 2)))
    then Ok (false, Some (match opt with
                          | Some o => o +:+ " -hd -ff"
                          | None => "-hd -ff"
                          end))
    else Raise (ValueError "Invalid tensor tree resolution.").
Proof.
  intros Hr Hs Hsc Hpos Hlog. unfold tensor_tree_setup.
  rewrite Hr, Hs. simpl andb. cbv iota.
  unfold mbind, result_bind. rewrite Hsc. simpl rbind.
  unfold math_log2. rewrite decide_True by exact Hpos. simpl rbind.
  rewrite (fmod_nonzero_trunc _ Hlog). simpl rbind.
  destruct (Qeq_bool (log sc 2) (inject_Z (Qfloor (log sc 2)))), opt; reflexivity.
Qed.

(** X22: a resolution whose base-2 logarithm is below 1, as that of
    "sc1", is not rejected with the ValueError of the resolution: the
    remainder is taken modulo zero and a ZeroDivisionError is raised. *)
Theorem tensor_tree_setup_zero_division (model : Model) (opt : option string) (sc : Z) :
  startswith (rbasis model) "sc" = true →
  startswith (sbasis model) "sc" = true →
  py_int (str_from 2 (rbasis model)) = Ok sc →
  (0 < sc)%Z →
  (0 <= log sc 2)%Q → (log sc 2 < 1)%Q →
  ∃ msg, tensor_tree_setup model true opt = Raise (ZeroDivisionError msg).
Proof.
  intros Hr Hs Hsc Hpos Hlo Hhi. unfold tensor_tree_setup.
  rewrite Hr, Hs. simpl andb. cbv iota.
  unfold mbind, result_bind. rewrite Hsc. simpl rbind.
  unfold math_log2. rewrite decide_True by exact Hpos. simpl rbind.
  rewrite (py_trunc_small _ Hlo Hhi). eexists. reflexivity.
Qed.

(** X23: when no primitive of the environment is named by the
    modifier of the first polygon, the ValueError of the unknown
    material is raised before anything is done: the world is as
    before. *)
Theorem gen_ncp_mtx_from_unknown_material (ncp_prims all_prims : list Primitive)
    (model : Model) (out : string) (opt : option string)
    (refl forw wrap solar : bool) (w : world) (p : Primitive) :
  py_nth (List.filter (λ prim, bool_decide (ptype prim = "polygon")) ncp_prims) 0
    = Ok p →
  Forall (λ q, identifier q ≠ modifier p) all_prims →
  gen_ncp_mtx_from ncp_prims all_prims model out opt refl forw wrap solar w
    = (Raise (ValueError "Unknown NCP material"), w).
Proof.
  intros Hp Hnone. unfold gen_ncp_mtx_from.
  rewrite Hp. unfold mbind, prog_bind, pbind, plift, fmap, result_fmap. simpl rbind.
  cbv beta iota zeta.
  assert (Hfind : list_find (λ prim, identifier prim = modifier p) all_prims = None).
  { apply list_find_None. exact Hnone. }
  rewrite Hfind. reflexivity.
Qed.

(** X24: with the solar spectrum asked for and a BSDF material, the
    function never ends normally from line 243 on: after the passes it
    reads the name args, which nothing binds. *)
Theorem gen_ncp_mtx_from_solar_never_returns (ncp_prims all_prims : list Primitive)
    (model : Model) (out : string) (opt : option string)
    (refl forw wrap : bool) (w : world) (p mat : Primitive) (i : nat) :
  py_nth (List.filter (λ prim, bool_decide (ptype prim = "polygon")) ncp_prims) 0
    = Ok p →
  list_find (λ prim, identifier prim = modifier p) all_prims = Some (i, mat) →
  ptype mat = "BSDF" →
  ∃ e w',
    gen_ncp_mtx_from ncp_prims all_prims model out opt refl forw wrap true w
      = (Raise e, w').
Proof.
  intros Hp Hfind Hbsdf. unfold gen_ncp_mtx_from.
  rewrite Hp. unfold mbind, prog_bind, plift at 1, fmap, result_fmap. simpl rbind.
  unfold pbind at 1. cbv beta iota zeta.
  rewrite Hfind. simpl. rewrite Hbsdf.
  rewrite decide_False by discriminate.
  rewrite bool_decide_eq_true_2 by reflexivity.
  unfold pbind.
  destruct (stage_solar mat all_prims w) as [[[]|e] w1]; [|eexists _, _; reflexivity].
  unfold plift at 1.
  destruct (tensor_tree_setup model wrap opt) as [setup|e]; [|eexists _, _; reflexivity].
  destruct (with_tempdir _ w1) as [[[]|e] w2]; [|eexists _, _; reflexivity].
  unfold plift, load_global. destruct (bool_decide _); eexists _, _; reflexivity.
Qed.
End Resolution.

Section SampleWrapStage.
Import Ncp.
#[local] Existing Instances Samples.geom Samples.scene Samples.mathlib Samples.host.

Lemma ncp_compute_back_missing_key_witness :
  @ncp_compute_back Samples.geom Samples.scene Samples.matrix
      Samples.two_windows_model [] None false Samples.empty_world
    = (Raise (KeyError "tb0"), Samples.empty_world).
Proof.
  apply (@ncp_compute_back_missing_key Samples.geom Samples.scene Samples.matrix
           Samples.two_windows_model [] None false Samples.empty_world (KeyError "tb0")).
  - discriminate.
  - reflexivity.
Defined.

Lemma ncp_compute_back_stops_at_failure_witness :
  ∃ w',
    @ncp_compute_back Samples.geom Samples.scene Samples.failing_matrix
        Samples.two_windows_model (stage_paths "/tmp/td" 2 true false).1 None true
        Samples.failing_world
      = (Raise (ValueError "rfluxmtx failed"), w') ∧
    invocations w' = S (invocations Samples.failing_world).
Proof.
  apply (@ncp_compute_back_stops_at_failure Samples.geom Samples.scene
           Samples.failing_matrix Samples.two_windows_model
           (stage_paths "/tmp/td" 2 true false).1 None true Samples.failing_world
           (ValueError "rfluxmtx failed")).
  - discriminate.
  - intros s r e o fs. reflexivity.
  - eexists. reflexivity.
  - intros _. eexists. reflexivity.
Defined.

Lemma rttree_reduce_visible_type_error_witness :
  ∃ msg w',
    @rttree_reduce Samples.matrix Samples.host 4 2 90 false
        "/tmp/td/tb0.dat" "/tmp/td/tb0p.dat" "Visible" Samples.empty_world
      = (Raise (TypeError msg), w') ∧
    files w' !! "/tmp/td/tb0p.dat" = Some "" ∧
    (∀ p, p ≠ "/tmp/td/tb0p.dat" → files w' !! p = files Samples.empty_world !! p) ∧
    invocations w' = invocations Samples.empty_world.
Proof.
  apply (@rttree_reduce_visible_type_error Samples.matrix Samples.host 4 2 90 false
           "/tmp/td/tb0.dat" "/tmp/td/tb0p.dat" Samples.empty_world).
  lia.
Defined.

Lemma run_passes_invocations_witness :
  ∃ r w',
    @run_passes Samples.geom Samples.scene Samples.mathlib Samples.matrix Samples.host
        Samples.two_windows_model "out.xml" None true true true true "/tmp/td"
        Samples.empty_world = (r, w') ∧
    invocations w' =
      invocations Samples.empty_world + 2 * length (windows Samples.two_windows_model).
Proof.
  apply (@run_passes_invocations Samples.geom Samples.scene Samples.mathlib
           Samples.matrix Samples.host Samples.two_windows_model "out.xml" None
           true true true true "/tmp/td" Samples.empty_world).
  intros s r e o fs. reflexivity.
Defined.

Lemma run_passes_wrap_never_returns_witness :
  ∃ e w',
    @run_passes Samples.geom Samples.scene Samples.mathlib Samples.matrix Samples.host
        Samples.sc4_model "out.xml" (Some "-hd -ff") false false true false "/tmp/td"
        Samples.empty_world = (Raise e, w').
Proof.
  apply (@run_passes_wrap_never_returns Samples.geom Samples.scene Samples.mathlib
           Samples.matrix Samples.host Samples.sc4_model "out.xml" (Some "-hd -ff")
           false false false "/tmp/td" Samples.empty_world).
  discriminate.
Defined.

(** The run of the tensor tree wrapping on one window: the passes
    invoke the simulator once, and the reduction raises. *)
Example sc4_wrap_type_error :
  ∃ w',
    @run_passes Samples.geom Samples.scene Samples.mathlib Samples.matrix Samples.host
        Samples.sc4_model "out.xml" (Some "-hd -ff") false false true false "/tmp/td"
        Samples.empty_world
      = (Raise (TypeError "expected str, bytes or os.PathLike object, not int"), w') ∧
    invocations w' = 1.
Proof. eexists. split; [vm_compute; reflexivity | reflexivity]. Qed.

Lemma tensor_tree_setup_whole_log_witness :
  tensor_tree_setup Samples.sc6_model true None =
    if Qeq_bool (log 6 2) (inject_Z (Qfloor (log 6 2)))
    then Ok (false, Some "-hd -ff")
    else Raise (ValueError "Invalid tensor tree resolution.").
Proof.
  apply (@tensor_tree_setup_whole_log Samples.mathlib Samples.sc6_model None 6).
  - reflexivity.
  - reflexivity.
  - reflexivity.
  - lia.
  - vm_compute. discriminate.
Defined.

Lemma tensor_tree_setup_zero_division_witness :
  ∃ msg, tensor_tree_setup Samples.sc1_model true None = Raise (ZeroDivisionError msg).
Proof.
  apply (@tensor_tree_setup_zero_division Samples.mathlib Samples.sc1_model None 1).
  - reflexivity.
  - reflexivity.
  - reflexivity.
  - lia.
  - vm_compute. discriminate.
  - vm_compute. reflexivity.
Defined.

Lemma gen_ncp_mtx_from_unknown_material_witness :
  @gen_ncp_mtx_from Samples.geom Samples.scene Samples.mathlib Samples.matrix
      Samples.host [Samples.window_prim "shade" "north"] (unpack_primitives "room.rad")
      Samples.kf_model "out.xml" None false false true false Samples.empty_world
    = (Raise (ValueError "Unknown NCP material"), Samples.empty_world).
Proof.
  apply (@gen_ncp_mtx_from_unknown_material Samples.geom Samples.scene Samples.mathlib
           Samples.matrix Samples.host [Samples.window_prim "shade" "north"]
           (unpack_primitives "room.rad") Samples.kf_model "out.xml" None
           false false true false Samples.empty_world
           (Samples.window_prim "shade" "north")).
  - reflexivity.
  - repeat constructor; discriminate.
Defined.

Lemma gen_ncp_mtx_from_solar_never_returns_witness :
  ∃ e w',
    @gen_ncp_mtx_from Samples.geom Samples.scene Samples.mathlib Samples.matrix
        Samples.host (unpack_primitives "room.rad") (unpack_primitives "room.rad")
        Samples.kf_model "out.xml" None false false false true Samples.empty_world
      = (Raise e, w').
Proof.
  apply (@gen_ncp_mtx_from_solar_never_returns Samples.geom Samples.scene
           Samples.mathlib Samples.matrix Samples.host
           (unpack_primitives "room.rad") (unpack_primitives "room.rad")
           Samples.kf_model "out.xml" None false false false Samples.empty_world
           (MkPrimitive "shade_mat" "polygon" "shade" "0" "oblique")
           (MkPrimitive "void" "BSDF" "shade_mat" "6 0 shade.xml 0 0 1 ." "0") 0).
  - reflexivity.
  - reflexivity.
  - reflexivity.
Defined.
End SampleWrapStage.

(** ** The endpoints of the transfer passes *)

Section PassEndpoints.
Import Ncp.
Context `{SC : Scene} `{ML : MathLib} `{MX : Matrix} `{HO : Host}.

Lemma pfor_events {A} (Q : event → Prop) (items : list A)
    (body : A → prog world unit) :
  (∀ a w r w', a ∈ items → body a w = (r, w') →
     ∃ new, events w' = events w ++ new ∧ Forall Q new) →
  ∀ w r w', pfor items body w = (r, w') →
     ∃ new, events w' = events w ++ new ∧ Forall Q new.
Proof.
  induction items as [|a items IH]; intros Hbody w r w'; simpl.
  - unfold pret. intros [= _ <-]. exists [].
    split; [rewrite app_nil_r; reflexivity | constructor].
  - unfold pbind. destruct (body a w) as [[[]|e] w1] eqn:Hb; intros Hrun.
    + destruct (Hbody a w _ _ (list_elem_of_here _ _) Hb) as (n1 & He1 & Hq1).
      destruct (IH (λ b w0 r0 w0' Hin,
                      Hbody b w0 r0 w0' (list_elem_of_further _ _ _ Hin)) _ _ _ Hrun)
        as (n2 & He2 & Hq2).
      exists (n1 ++ n2).
      split; [rewrite He2, He1, app_assoc; reflexivity | apply Forall_app; auto].
    + injection Hrun as _ <-. exact (Hbody a w _ _ (list_elem_of_here _ _) Hb).
Qed.

(** X25: the forward pass builds one sender, from the flipped ports
    with the basis "-" + rbasis, before the loop over the windows;
    whatever happens next, it builds no other sender, spawns no
    process, and every invocation of the simulator is given that
    sender, the environment of the model and the options. *)
Theorem ncp_compute_front_one_sender (model : Model)
    (src_dict : list (string * string)) (opt : option string) (refl : bool)
    (w : world) :
  let sndr :=
    surface_as_sender
      (map (λ p, MkPrimitive (modifier p) (ptype p) (identifier p) (str_arg p)
                   (to_real (flip (parse_polygon (real_arg p)))))
           (ports model))
      ("-" +:+ rbasis model) false None in
  ∃ new,
    events (ncp_compute_front model src_dict opt refl w).2
      = events w ++ SenderBuilt sndr :: new ∧
    Forall (λ ev, match ev with
                  | Invoked s _ e o => s = sndr ∧ e = env model ∧ o = opt
                  | ReceiverBuilt _ => True
                  | _ => False
                  end) new.
Proof.
  intros sndr. unfold ncp_compute_front. cbv zeta. fold sndr.
  unfold mbind at 1, prog_bind at 1, pbind at 1, build_sender at 1.
  unfold mbind at 1, prog_bind at 1, pbind at 1, emit at 1, mret at 1, prog_ret at 1,
    pret at 1.
  cbv beta iota. fold sndr.
  match goal with |- context [pfor ?items ?body ?w1] =>
    destruct (pfor items body w1) as [r w'] eqn:Hrun end.
  eapply pfor_events in Hrun as (new & Hev & Hq).
  - exists new. split; [|exact Hq].
    simpl. rewrite Hev. simpl. rewrite <- app_assoc. reflexivity.
  - intros [idx wp] w0 r0 w0' _.
    unfold mbind, prog_bind, pbind, plift, build_receiver, emit, invoke,
      mret, prog_ret, pret. simpl.
    destruct (dict_get ("tf" +:+ pretty idx) src_dict) as [tf|e1];
      [|intros [= _ <-]; exists []; split; [symmetry; apply app_nil_r | constructor]].
    destruct refl.
    + destruct (dict_get ("rf" +:+ pretty idx) src_dict) as [rf|e2]; simpl.
      * match goal with |- context [rfluxmtx ?s ?r ?e ?o ?fs] =>
          destruct (rfluxmtx s r e o fs) as [res fs'] end.
        intros [= _ <-]. simpl. eexists.
        split; [rewrite <- !app_assoc; reflexivity|].
        repeat (apply List.Forall_cons; [simpl; eauto 8|]). apply List.Forall_nil.
      * intros [= _ <-]. simpl. eexists. split; [reflexivity|].
        repeat (apply List.Forall_cons; [simpl; eauto 8|]). apply List.Forall_nil.
    + simpl.
      match goal with |- context [rfluxmtx ?s ?r ?e ?o ?fs] =>
        destruct (rfluxmtx s r e o fs) as [res fs'] end.
      intros [= _ <-]. simpl. eexists.
      split; [rewrite <- !app_assoc; reflexivity|].
      repeat (apply List.Forall_cons; [simpl; eauto 8|]). apply List.Forall_nil.
Qed.

(** X26: the backward pass builds a sender for each window it
    reaches: every invocation of the simulator is given a sender built
    from one window of the model alone, with the basis sbasis, and the
    environment of the model and the options; no process is spawned. *)
Theorem ncp_compute_back_window_senders (model : Model)
    (src_dict : list (string * string)) (opt : option string) (refl : bool)
    (w : world) :
  ∃ new,
    events (ncp_compute_back model src_dict opt refl w).2 = events w ++ new ∧
    Forall (λ ev, match ev with
                  | Invoked s _ e o =>
                      (∃ wp, wp ∈ windows model ∧
                             s = surface_as_sender [wp] (sbasis model) true None) ∧
                      e = env model ∧ o = opt
                  | Spawned _ => False
                  | _ => True
                  end) new.
Proof.
  unfold ncp_compute_back.
  match goal with |- context [pfor ?items ?body ?w1] =>
    destruct (pfor items body w1) as [r w'] eqn:Hrun end.
  eapply pfor_events in Hrun as (new & Hev & Hq).
  - exists new. split; [exact Hev | exact Hq].
  - intros [idx wp] w0 r0 w0' Hin.
    assert (Hwp : wp ∈ windows model).
    { unfold enumerate in Hin. exact (elem_of_zip_r _ _ _ _ Hin). }
    unfold mbind, prog_bind, pbind, plift, build_receiver, build_sender, emit, invoke,
      mret, prog_ret, pret. simpl.
    destruct (dict_get ("tb" +:+ pretty idx) src_dict) as [tb|e1];
      [|intros [= _ <-]; exists []; split; [symmetry; apply app_nil_r | constructor]].
    destruct refl.
    + destruct (dict_get ("rb" +:+ pretty idx) src_dict) as [rb|e2]; simpl.
      * match goal with |- context [rfluxmtx ?s ?r ?e ?o ?fs] =>
          destruct (rfluxmtx s r e o fs) as [res fs'] end.
        intros [= _ <-]. simpl. eexists.
        split; [rewrite <- !app_assoc; reflexivity|].
        repeat (apply List.Forall_cons; [simpl; eauto 8|]). apply List.Forall_nil.
      * intros [= _ <-]. simpl. eexists.
        split; [rewrite <- !app_assoc; reflexivity|].
        repeat (apply List.Forall_cons; [simpl; eauto 8|]). apply List.Forall_nil.
    + simpl.
      match goal with |- context [rfluxmtx ?s ?r ?e ?o ?fs] =>
        destruct (rfluxmtx s r e o fs) as [res fs'] end.
      intros [= _ <-]. simpl. eexists.
      split; [rewrite <- !app_assoc; reflexivity|].
      repeat (apply List.Forall_cons; [simpl; eauto 8|]). apply List.Forall_nil.
Qed.

(** X27: without a window to start from, the synthesis of the port
    primitives raises an IndexError, whatever the shading
    primitives. *)
Theorem gen_port_prims_no_window (nprim : list Primitive) :
  ∃ msg, gen_port_prims_from_window_ncp [] nprim = Raise (IndexError msg).
Proof. eexists. reflexivity. Qed.
End PassEndpoints.
